(** * nuvolaris/task: the command-line front end and the template functions

    A shallow embedding of

    - [cmd/taskmain/task.go]: [Task], [getArgs], [getVersion];
    - [internal/templater/funcs.go]: the package initialiser that builds
      [templateFuncs].

    Everything the two files import (pflag, the executor of go-task, the
    shell quoting library, the Go standard library, slim-sprig) is a
    collaborator: its answers are fields of a record the model receives,
    and every call [Task] makes to one is an event of the trace [Task]
    returns. *)

From Stdlib Require Import ZArith String List Bool Lia Floats.
From stdpp Require Import base gmap strings list fin_maps.

Notation "a +++ b" := (String.append a b) (at level 60, right associativity).

(** ** Go runtime notions shared by the two packages *)

Module Go.

(** The line feed, Go's ["\n"]. *)
Definition nl : string := String (Ascii.ascii_of_nat 10) EmptyString.

(** The double quote, for the string constants that contain one. *)
Definition dq : string := String (Ascii.ascii_of_nat 34) EmptyString.

(** Values of Go's [error] interface, as far as [Task] tells them apart:
    it type-asserts [*task.TaskRunError] and calls [ExitCode()] on it;
    of every other error it only uses [Error()]. *)
Inductive error : Type :=
| TaskRunError (ExitCode : Z) (text : string)
| errorString (text : string).

Definition Error (e : error) : string :=
  match e with
  | TaskRunError _ s => s
  | errorString s => s
  end.

Fixpoint last_is_nl (s : string) : bool :=
  match s with
  | EmptyString => false
  | String c EmptyString => Ascii.eqb c (Ascii.ascii_of_nat 10)
  | String _ r => last_is_nl r
  end.

(** [log.Logger.Output] with flags 0: the message, with a line feed
    appended unless it already ends in one. *)
Definition log_Output (s : string) : string :=
  if last_is_nl s then s else s +++ nl.

End Go.

(** ** Package taskmain *)

Module Taskmain.
Import Go.

(** *** Data of the collaborators *)

(** [taskfile.Output]: the style name and the templates of the group style. *)
Record Output : Type := {
  Name : string;
  Group_Begin : string;
  Group_End : string
}.

(** Modelled from the spec: the value of a variable, of package [taskfile]
    (not among the sources), "either a static string or a reference to a
    dynamic (shell-evaluated) expression". *)
Inductive Var : Type :=
| Static (s : string)
| Dynamic (sh : string).

(** Modelled from the spec: [taskfile.Vars] and its methods [Set] and
    lookup (package [taskfile] is not among the sources), "an
    insertion-ordered mapping from variable name to a variable value":
    setting a name that is present replaces its value in place, setting a
    new name appends it. *)
Definition Vars : Type := list (string * Var).

Fixpoint Vars_Set (key : string) (value : Var) (vs : Vars) : Vars :=
  match vs with
  | [] => [(key, value)]
  | (k, v) :: rest =>
      if String.eqb k key then (k, value) :: rest
      else (k, v) :: Vars_Set key value rest
  end.

Fixpoint Vars_Get (vs : Vars) (key : string) : option Var :=
  match vs with
  | [] => None
  | (k, v) :: rest => if String.eqb k key then Some v else Vars_Get rest key
  end.

(** [taskfile.Call]: a task name and its private variables ([nil] when it
    has none). *)
Record Call : Type := {
  Call_Task : string;
  Call_Vars : option Vars
}.

(** The filters [Task] passes to [ListTasks]. *)
Inductive Filter : Type := FilterOutInternal | FilterOutNoDesc.

(** The fields of [task.Executor] that [Task] fills in (the three standard
    streams are those of the process). *)
Record Executor : Type := {
  Force : bool;
  Watch : bool;
  Verbose : bool;
  Silent : bool;
  Dir : string;
  Dry : bool;
  Entrypoint : string;
  Summary : bool;
  Parallel : bool;
  Color : bool;
  Concurrency : Z;
  Interval : string;
  OutputStyle : Output
}.

(** The variables bound to the flags, as [pflags.Parse(arguments)] leaves
    them. *)
Record Flags : Type := {
  versionFlag : bool;
  helpFlag : bool;
  init : bool;
  list_ : bool;
  listAll : bool;
  status : bool;
  force : bool;
  watch : bool;
  verbose : bool;
  silent : bool;
  dry : bool;
  summary : bool;
  exitCode : bool;
  parallel : bool;
  concurrency : Z;
  dir : string;
  entrypoint : string;
  output : Output;
  color : bool;
  interval : string
}.

(** What the collaborators answer.  [getArgs] reads the positional
    arguments and the index of the separator from the package-level flag
    set of pflag ([pflag.Args()], [pflag.CommandLine.ArgsLenAtDash()]). *)
Record World : Type := {
  version : string;
  debug_ReadBuildInfo : option (string * string);
  os_Getwd : string * option error;
  task_InitTaskfile : string -> option error;
  filepath_Dir : string -> string;
  filepath_Base : string -> string;
  Executor_Setup : Executor -> option error;
  Taskfile_ParsedVersion : Executor -> float * option error;
  Executor_ListTasks : Executor -> list Filter -> bool;
  pflag_Args : list string;
  pflag_ArgsLenAtDash : Z;
  syntax_Quote : string -> string * option error;
  args_ParseV3 : list string -> list Call * Vars;
  args_ParseV2 : list string -> list Call * Vars;
  Executor_Status : Executor -> list Call -> option error;
  Executor_Run : Executor -> list Call -> option error
}.

(** *** Processes: a trace of events and how the function ended *)

Inductive Event : Type :=
| Stdout (s : string)
| Stderr (s : string)
| PrintDefaults
| Getwd
| InitTaskfile (wd : string)
| ListTaskNames (e : Executor) (all : bool)
| Setup (e : Executor)
| ParsedVersion (e : Executor)
| ListTasks (e : Executor) (filters : list Filter)
| ParseV3 (tokens : list string)
| ParseV2 (tokens : list string)
| Merge (globals : Vars)
| InterceptInterruptSignals (e : Executor)
| Status (e : Executor) (calls : list Call)
| Run (e : Executor) (calls : list Call).

Inductive Res (A : Type) : Type :=
| Ret (a : A)
| Exit (code : Z)
| Panic.
Arguments Ret {A} a.
Arguments Exit {A} code.
Arguments Panic {A}.

Definition Proc (A : Type) : Type := list Event * Res A.

Definition ret {A} (a : A) : Proc A := ([], Ret a).

Definition bind {A B} (p : Proc A) (k : A -> Proc B) : Proc B :=
  match p with
  | (t, Ret a) => let (t', r) := k a in (t ++ t', r)
  | (t, Exit c) => (t, Exit c)
  | (t, Panic) => (t, Panic)
  end.

Notation "'do' x <- p ; k" := (bind p (fun x => k))
  (at level 10, x name, p at level 100, k at level 200).
Notation "'do' ' pat <- p ; k" := (bind p (fun x => match x with pat => k end))
  (at level 10, pat pattern, p at level 100, k at level 200).
Notation "'run' p ; k" := (bind p (fun _ => k))
  (at level 10, p at level 100, k at level 200).

Definition emit (e : Event) : Proc unit := ([e], Ret tt).

(** A call to a collaborator: the event, and the collaborator's answer. *)
Definition call {A} (e : Event) (answer : A) : Proc A := ([e], Ret answer).

Definition os_Exit {A} (code : Z) : Proc A := ([], Exit code).

Definition panic {A} : Proc A := ([], Panic).

Definition fmt_Printf (s : string) : Proc unit := emit (Stdout s).

Definition log_Print (s : string) : Proc unit := emit (Stderr (log_Output s)).

(** [log.Fatal]: [Print] followed by [os.Exit(1)]. *)
Definition log_Fatal {A} (s : string) : Proc A := run log_Print s; os_Exit 1.

(** [fmt.Errorf] builds an error value and writes nothing. *)
Definition fmt_Errorf (s : string) : error := errorString s.

(** *** The sources *)

Definition usage : string :=
  "Usage: task [-ilfwvsd] [--init] [--list] [--force] [--watch] [--verbose] [--silent] [--dir] [--taskfile] [--dry] [--summary] [task...]" +++ nl +++
  nl +++
  "Runs the specified task(s). Falls back to the " +++ dq +++ "default" +++ dq +++ " task if no task name" +++ nl +++
  "was specified, or lists all tasks if an unknown task name was specified." +++ nl +++
  nl +++
  "Example: 'task hello' with the following 'Taskfile.yml' file will generate an" +++ nl +++
  "'output.txt' file with the content " +++ dq +++ "hello" +++ dq +++ "." +++ nl +++
  nl +++
  "'''" +++ nl +++
  "version: '3'" +++ nl +++
  "tasks:" +++ nl +++
  "  hello:" +++ nl +++
  "    cmds:" +++ nl +++
  "      - echo " +++ dq +++ "I am going to write a file named 'output.txt' now." +++ dq +++ nl +++
  "      - echo " +++ dq +++ "hello" +++ dq +++ " > output.txt" +++ nl +++
  "    generates:" +++ nl +++
  "      - output.txt" +++ nl +++
  "'''" +++ nl +++
  nl +++
  "Options:" +++ nl.

(** [getVersion]: the result, and the package variable [version] after the
    call. *)
Definition getVersion (w : World) : string * string :=
  if negb (String.eqb (version w) "") then (version w, version w)
  else
    match debug_ReadBuildInfo w with
    | None => ("unknown", version w)
    | Some (Main_Version, Main_Sum) =>
        if String.eqb Main_Version "" then ("unknown", version w)
        else
          let version' := Main_Version in
          let version' :=
            if negb (String.eqb Main_Sum "")
            then version' +++ " (" +++ Main_Sum +++ ")"
            else version' in
          (version', version')
    end.

(** The loop of [getArgs] over [args[doubleDashPos:]]: the quoted forms
    are appended one by one; the first failure ends it. *)
Fixpoint quoteLoop (Quote : string -> string * option error)
    (rest : list string) (quotedCliArgs : list string)
    : list string * option error :=
  match rest with
  | [] => (quotedCliArgs, None)
  | arg :: rest' =>
      match Quote arg with
      | (_, Some err) => ([], Some err)
      | (quotedCliArg, None) =>
          quoteLoop Quote rest' (quotedCliArgs ++ [quotedCliArg])
      end
  end.

(** [strings.Join]. *)
Definition strings_Join (elems : list string) (sep : string) : string :=
  String.concat sep elems.

(** [getArgs].  Slicing [args] at an index outside [0 .. len(args)] panics. *)
Definition getArgs (w : World) : Proc (list string * string * option error) :=
  let args := pflag_Args w in
  let doubleDashPos := pflag_ArgsLenAtDash w in
  if (doubleDashPos =? -1)%Z then ret (args, ""%string, None)
  else if ((doubleDashPos <? 0) || (Z.of_nat (length args) <? doubleDashPos))%Z
  then panic
  else
    let pos := Z.to_nat doubleDashPos in
    match quoteLoop (syntax_Quote w) (drop pos args) [] with
    | (_, Some err) => ret ([], ""%string, Some err)
    | (quotedCliArgs, None) =>
        ret (take pos args, strings_Join quotedCliArgs " ", None)
    end.

(** [Task], from the parsed flags on.  A [return] in the middle of the Go
    function is the end of its branch here. *)
Definition Task (w : World) (fl : Flags) : Proc unit :=
  if versionFlag fl then
    fmt_Printf ("Task version: " +++ fst (getVersion w) +++ nl)
  else if helpFlag fl then
    run log_Print usage;
    emit PrintDefaults
  else if init fl then
    do '(wd, err) <- call Getwd (os_Getwd w);
    match err with
    | Some err => log_Fatal (Error err)
    | None =>
        do err <- call (InitTaskfile wd) (task_InitTaskfile w wd);
        match err with
        | Some err => log_Fatal (Error err)
        | None => ret tt
        end
    end
  else if negb (String.eqb (dir fl) "") && negb (String.eqb (entrypoint fl) "")
  then log_Fatal "task: You can't set both --dir and --taskfile"
  else
    let '(dir', entrypoint') :=
      if negb (String.eqb (entrypoint fl) "")
      then (filepath_Dir w (entrypoint fl), filepath_Base w (entrypoint fl))
      else (dir fl, entrypoint fl) in
    if negb (String.eqb (Name (output fl)) "group")
       && negb (String.eqb (Group_Begin (output fl)) "")
    then log_Fatal "task: You can't set --output-group-begin without --output=group"
    else if negb (String.eqb (Name (output fl)) "group")
       && negb (String.eqb (Group_End (output fl)) "")
    then log_Fatal "task: You can't set --output-group-end without --output=group"
    else
      let e := {|
        Force := force fl;
        Watch := watch fl;
        Verbose := verbose fl;
        Silent := silent fl;
        Dir := dir';
        Dry := dry fl;
        Entrypoint := entrypoint';
        Summary := summary fl;
        Parallel := parallel fl;
        Color := color fl;
        Concurrency := concurrency fl;
        Interval := interval fl;
        OutputStyle := output fl
      |} in
      if (list_ fl || listAll fl) && silent fl then
        emit (ListTaskNames e (listAll fl))
      else
        do err <- call (Setup e) (Executor_Setup w e);
        run match err with
            | Some err => log_Fatal (Error err)
            | None => ret tt
            end;
        do '(v, err) <- call (ParsedVersion e) (Taskfile_ParsedVersion w e);
        match err with
        | Some err => log_Fatal (Error err)
        | None =>
          if list_ fl then
            do ok <- call (ListTasks e [FilterOutInternal; FilterOutNoDesc])
                       (Executor_ListTasks w e [FilterOutInternal; FilterOutNoDesc]);
            if negb ok then
              fmt_Printf "task: No tasks with description available. Try --list-all to list all tasks"
            else ret tt
          else if listAll fl then
            do ok <- call (ListTasks e [FilterOutInternal])
                       (Executor_ListTasks w e [FilterOutInternal]);
            if negb ok then fmt_Printf "task: No tasks available"
            else ret tt
          else
            do '(tasksAndVars, cliArgs, err) <- getArgs w;
            run match err with
                | Some err => log_Fatal (Error err)
                | None => ret tt
                end;
            do '(calls, globals) <-
              (if (3 <=? v)%float
               then call (ParseV3 tasksAndVars) (args_ParseV3 w tasksAndVars)
               else call (ParseV2 tasksAndVars) (args_ParseV2 w tasksAndVars));
            let globals := Vars_Set "CLI_ARGS" (Static cliArgs) globals in
            run emit (Merge globals);
            run (if negb (watch fl) then emit (InterceptInterruptSignals e)
                 else ret tt);
            if status fl then
              do err <- call (Status e calls) (Executor_Status w e calls);
              match err with
              | Some err => log_Fatal (Error err)
              | None => ret tt
              end
            else
              do err <- call (Run e calls) (Executor_Run w e calls);
              match err with
              | Some err =>
                  let _ := fmt_Errorf (Error err) in
                  run (if exitCode fl then
                         match err with
                         | TaskRunError code _ => os_Exit code
                         | _ => ret tt
                         end
                       else ret tt);
                  os_Exit 1
              | None => ret tt
              end
        end.

(** *** Notions the properties are stated with *)

(** The executor [Task] builds: the literal of lines 145 to 164, with the
    directory and the entry point as lines 129 to 132 leave them. *)
Definition newExecutor (w : World) (fl : Flags) : Executor :=
  let '(dir', entrypoint') :=
    if negb (String.eqb (entrypoint fl) "")
    then (filepath_Dir w (entrypoint fl), filepath_Base w (entrypoint fl))
    else (dir fl, entrypoint fl) in
  {|
    Force := force fl;
    Watch := watch fl;
    Verbose := verbose fl;
    Silent := silent fl;
    Dir := dir';
    Dry := dry fl;
    Entrypoint := entrypoint';
    Summary := summary fl;
    Parallel := parallel fl;
    Color := color fl;
    Concurrency := concurrency fl;
    Interval := interval fl;
    OutputStyle := output fl
  |}.

(** Lines 206 to 238 of [Task] on their own, for an executor, a version
    and the two results of [getArgs]; [Task_from_call_building] shows that
    [Task] continues with exactly this. *)
Definition fromCallBuilding (w : World) (fl : Flags) (e : Executor)
    (v : float) (tasksAndVars : list string) (cliArgs : string) : Proc unit :=
  do '(calls, globals) <-
    (if (3 <=? v)%float
     then call (ParseV3 tasksAndVars) (args_ParseV3 w tasksAndVars)
     else call (ParseV2 tasksAndVars) (args_ParseV2 w tasksAndVars));
  let globals := Vars_Set "CLI_ARGS" (Static cliArgs) globals in
  run emit (Merge globals);
  run (if negb (watch fl) then emit (InterceptInterruptSignals e)
       else ret tt);
  if status fl then
    do err <- call (Status e calls) (Executor_Status w e calls);
    match err with
    | Some err => log_Fatal (Error err)
    | None => ret tt
    end
  else
    do err <- call (Run e calls) (Executor_Run w e calls);
    match err with
    | Some err =>
        let _ := fmt_Errorf (Error err) in
        run (if exitCode fl then
               match err with
               | TaskRunError code _ => os_Exit code
               | _ => ret tt
               end
             else ret tt);
        os_Exit 1
    | None => ret tt
    end.

(** The conditions under which [Task] gets to line 206, with the version
    [v] it read and the results [tasksAndVars], [cliArgs] of [getArgs]. *)
Definition reachesCallBuilding (w : World) (fl : Flags)
    (v : float) (tasksAndVars : list string) (cliArgs : string) : Prop :=
  versionFlag fl = false /\ helpFlag fl = false /\ init fl = false /\
  negb (String.eqb (dir fl) "") && negb (String.eqb (entrypoint fl) "") = false /\
  negb (String.eqb (Name (output fl)) "group")
    && negb (String.eqb (Group_Begin (output fl)) "") = false /\
  negb (String.eqb (Name (output fl)) "group")
    && negb (String.eqb (Group_End (output fl)) "") = false /\
  (list_ fl || listAll fl) && silent fl = false /\
  Executor_Setup w (newExecutor w fl) = None /\
  Taskfile_ParsedVersion w (newExecutor w fl) = (v, None) /\
  list_ fl = false /\ listAll fl = false /\
  getArgs w = ret (tasksAndVars, cliArgs, None).

(** The events of lines 206 to 238. *)
Definition fromLine206 (ev : Event) : bool :=
  match ev with
  | ParseV3 _ | ParseV2 _ | Merge _ | InterceptInterruptSignals _
  | Status _ _ | Run _ _ => true
  | _ => false
  end.

(** The Call Builder ran under the v3 grammar, under the v2 grammar. *)
Definition usesV3 (trace : list Event) : Prop :=
  exists tokens, In (ParseV3 tokens) trace.

Definition usesV2 (trace : list Event) : Prop :=
  exists tokens, In (ParseV2 tokens) trace.

(** The executor a call to the collaborator was made on. *)
Definition executor_of (ev : Event) : option Executor :=
  match ev with
  | ListTaskNames e _ | Setup e | ParsedVersion e | ListTasks e _
  | InterceptInterruptSignals e | Status e _ | Run e _ => Some e
  | _ => None
  end.

(** The invariant of the output configuration: templates of the group
    style only in the group style. *)
Definition groupTemplatesOnlyInGroup (o : Output) : Prop :=
  (Group_Begin o <> ""%string \/ Group_End o <> ""%string) ->
  Name o = "group"%string.

(** The diagnostics of the flag combinations [Task] refuses. *)
Definition flagCombinationMessages : list string := [
  "task: You can't set both --dir and --taskfile"%string;
  "task: You can't set --output-group-begin without --output=group"%string;
  "task: You can't set --output-group-end without --output=group"%string
].

(** The spec's [InvalidFlagCombination]: the process writes one of these
    diagnostics to the error stream, does nothing else, and exits 1. *)
Definition InvalidFlagCombination (p : Proc unit) : Prop :=
  exists msg, In msg flagCombinationMessages /\
    p = ([Stderr (msg +++ nl)], Exit 1).

(** A line written to one of the two streams. *)
Definition isWrite (ev : Event) : bool :=
  match ev with
  | Stdout _ | Stderr _ => true
  | _ => false
  end.

(** *** Sample inputs *)

(** The flags at their defaults (no argument given). *)
Definition defaultFlags : Flags := {|
  versionFlag := false; helpFlag := false; init := false; list_ := false;
  listAll := false; status := false; force := false; watch := false;
  verbose := false; silent := false; dry := false; summary := false;
  exitCode := false; parallel := false; concurrency := 0; dir := "";
  entrypoint := "";
  output := {| Name := ""; Group_Begin := ""; Group_End := "" |};
  color := true; interval := "5s"
|}.

Definition withDirAndTaskfile (fl : Flags) (d t : string) : Flags := {|
  versionFlag := versionFlag fl; helpFlag := helpFlag fl; init := init fl;
  list_ := list_ fl; listAll := listAll fl; status := status fl;
  force := force fl; watch := watch fl; verbose := verbose fl;
  silent := silent fl; dry := dry fl; summary := summary fl;
  exitCode := exitCode fl; parallel := parallel fl;
  concurrency := concurrency fl; dir := d; entrypoint := t;
  output := output fl; color := color fl; interval := interval fl
|}.

Definition withOutput (fl : Flags) (o : Output) : Flags := {|
  versionFlag := versionFlag fl; helpFlag := helpFlag fl; init := init fl;
  list_ := list_ fl; listAll := listAll fl; status := status fl;
  force := force fl; watch := watch fl; verbose := verbose fl;
  silent := silent fl; dry := dry fl; summary := summary fl;
  exitCode := exitCode fl; parallel := parallel fl;
  concurrency := concurrency fl; dir := dir fl; entrypoint := entrypoint fl;
  output := o; color := color fl; interval := interval fl
|}.

Definition withModes (fl : Flags) (version_ init_ exitCode_ : bool) : Flags := {|
  versionFlag := version_; helpFlag := helpFlag fl; init := init_;
  list_ := list_ fl; listAll := listAll fl; status := status fl;
  force := force fl; watch := watch fl; verbose := verbose fl;
  silent := silent fl; dry := dry fl; summary := summary fl;
  exitCode := exitCode_; parallel := parallel fl;
  concurrency := concurrency fl; dir := dir fl; entrypoint := entrypoint fl;
  output := output fl; color := color fl; interval := interval fl
|}.

(** Stand-ins for the collaborators: a quoting that wraps in single quotes,
    a call builder that answers one call and a user's [CLI_ARGS], a
    Taskfile of version [v], a run that ends with [runs]; the command line
    was [build CLI_ARGS=mine -- "a b" c]. *)
Definition stubQuote (s : string) : string * option error :=
  ("'" +++ s +++ "'", None).

Definition stubParse (tokens : list string) : list Call * Vars :=
  ([{| Call_Task := "build"; Call_Vars := None |}],
   [("CLI_ARGS"%string, Static "mine")]).

Definition stubWorld (v : float) (runs : option error) : World := {|
  version := "v3.20.0";
  debug_ReadBuildInfo := None;
  os_Getwd := ("/work"%string, None);
  task_InitTaskfile := fun _ => None;
  filepath_Dir := fun _ => "."%string;
  filepath_Base := fun p => p;
  Executor_Setup := fun _ => None;
  Taskfile_ParsedVersion := fun _ => (v, None);
  Executor_ListTasks := fun _ _ => true;
  pflag_Args := ["build"; "CLI_ARGS=mine"; "a b"; "c"]%string;
  pflag_ArgsLenAtDash := 2;
  syntax_Quote := stubQuote;
  args_ParseV3 := stubParse;
  args_ParseV2 := stubParse;
  Executor_Status := fun _ _ => None;
  Executor_Run := fun _ _ => runs
|}.

(** *** Further sample inputs *)

(** The world after a call of [getVersion] has assigned the package
    variable [version]. *)
Definition withVersion (w : World) (version' : string) : World := {|
  version := version';
  debug_ReadBuildInfo := debug_ReadBuildInfo w;
  os_Getwd := os_Getwd w;
  task_InitTaskfile := task_InitTaskfile w;
  filepath_Dir := filepath_Dir w;
  filepath_Base := filepath_Base w;
  Executor_Setup := Executor_Setup w;
  Taskfile_ParsedVersion := Taskfile_ParsedVersion w;
  Executor_ListTasks := Executor_ListTasks w;
  pflag_Args := pflag_Args w;
  pflag_ArgsLenAtDash := pflag_ArgsLenAtDash w;
  syntax_Quote := syntax_Quote w;
  args_ParseV3 := args_ParseV3 w;
  args_ParseV2 := args_ParseV2 w;
  Executor_Status := Executor_Status w;
  Executor_Run := Executor_Run w
|}.

Definition withListing (fl : Flags) (list' listAll' silent' : bool) : Flags := {|
  versionFlag := versionFlag fl; helpFlag := helpFlag fl; init := init fl;
  list_ := list'; listAll := listAll'; status := status fl;
  force := force fl; watch := watch fl; verbose := verbose fl;
  silent := silent'; dry := dry fl; summary := summary fl;
  exitCode := exitCode fl; parallel := parallel fl;
  concurrency := concurrency fl; dir := dir fl; entrypoint := entrypoint fl;
  output := output fl; color := color fl; interval := interval fl
|}.

Definition withStatusWatch (fl : Flags) (status' watch' : bool) : Flags := {|
  versionFlag := versionFlag fl; helpFlag := helpFlag fl; init := init fl;
  list_ := list_ fl; listAll := listAll fl; status := status';
  force := force fl; watch := watch'; verbose := verbose fl;
  silent := silent fl; dry := dry fl; summary := summary fl;
  exitCode := exitCode fl; parallel := parallel fl;
  concurrency := concurrency fl; dir := dir fl; entrypoint := entrypoint fl;
  output := output fl; color := color fl; interval := interval fl
|}.

(** The string of the one character NUL. *)
Definition nul : string := String (Ascii.ascii_of_nat 0) EmptyString.

(** A quoting that refuses the strings starting with the NUL character and
    wraps every other in single quotes. *)
Definition stubQuoteNoNul (s : string) : string * option error :=
  match s with
  | String c _ =>
      if Ascii.eqb c (Ascii.ascii_of_nat 0)
      then (""%string, Some (errorString "shell strings cannot contain null bytes"))
      else stubQuote s
  | EmptyString => stubQuote s
  end.

(** Stand-ins with every answer given: of [os.Getwd], of the scaffolding,
    of the loading, of the listing, of pflag's package-level flag set, of
    the status check and of the run. *)
Definition stubWorldOf (getwd : string * option error)
    (scaffolds loads : option error) (parsed : float * option error)
    (listed : bool) (args : list string) (dash : Z)
    (checks runs : option error) : World := {|
  version := "";
  debug_ReadBuildInfo := Some ("v3.20.0"%string, "h1:abc"%string);
  os_Getwd := getwd;
  task_InitTaskfile := fun _ => scaffolds;
  filepath_Dir := fun _ => "sub"%string;
  filepath_Base := fun _ => "Taskfile.yml"%string;
  Executor_Setup := fun _ => loads;
  Taskfile_ParsedVersion := fun _ => parsed;
  Executor_ListTasks := fun _ _ => listed;
  pflag_Args := args;
  pflag_ArgsLenAtDash := dash;
  syntax_Quote := stubQuoteNoNul;
  args_ParseV3 := stubParse;
  args_ParseV2 := stubParse;
  Executor_Status := fun _ _ => checks;
  Executor_Run := fun _ _ => runs
|}.

End Taskmain.

(** ** Package templater *)

Module Templater.
Import Go.

(** The values a [template.FuncMap] holds.  The closures of [init] have
    eight Go types; an entry of the base library is kept by its name, and
    [func_nil] is what indexing a map with an absent key gives. *)
Inductive Func : Type :=
| func_nil
| func_string (f : unit -> string)
| func_bool (f : unit -> bool)
| func_string_string (f : string -> string)
| func_string_strings (f : string -> list string)
| func_string_string_error (f : string -> string * option error)
| func_string_strings_error (f : string -> list string * option error)
| func_variadic_string (f : list string -> string)
| func_string2_string_error (f : string -> string -> string * option error)
| func_sprig (name : string).

(** What [funcs.go] imports: the constants of the build target, the
    functions of the Go standard library and of the shell library, and the
    base library's map. *)
Record Deps : Type := {
  runtime_GOOS : string;
  runtime_GOARCH : string;
  strings_ReplaceAll : string -> string -> string -> string;
  strings_Split : string -> string -> list string;
  filepath_FromSlash : string -> string;
  filepath_ToSlash : string -> string;
  filepath_Join : list string -> string;
  filepath_Rel : string -> string -> string * option error;
  syntax_Quote : string -> string * option error;
  shell_Fields : string -> list string * option error;
  sprig_TxtFuncMap : gmap string Func
}.

Definition cr : string := String (Ascii.ascii_of_nat 13) EmptyString.

(** [m[key]] on a Go map: the zero value when the key is absent. *)
Definition index (m : gmap string Func) (key : string) : Func :=
  default func_nil (m !! key).

(** The local [taskFuncs] of [init]: the map literal, then the three
    aliases. *)
Definition taskFuncs (d : Deps) : gmap string Func :=
  let taskFuncs : gmap string Func := list_to_map [
    ("OS"%string, func_string (fun _ => runtime_GOOS d));
    ("ARCH"%string, func_string (fun _ => runtime_GOARCH d));
    ("catLines"%string, func_string_string (fun s =>
       let s := strings_ReplaceAll d s (cr +++ nl) " " in
       strings_ReplaceAll d s nl " "));
    ("splitLines"%string, func_string_strings (fun s =>
       let s := strings_ReplaceAll d s (cr +++ nl) nl in
       strings_Split d s nl));
    ("fromSlash"%string, func_string_string (fun path =>
       filepath_FromSlash d path));
    ("toSlash"%string, func_string_string (fun path =>
       filepath_ToSlash d path));
    ("exeExt"%string, func_string (fun _ =>
       if String.eqb (runtime_GOOS d) "windows" then ".exe"%string
       else ""%string));
    ("shellQuote"%string, func_string_string_error (fun str =>
       syntax_Quote d str));
    ("splitArgs"%string, func_string_strings_error (fun s =>
       shell_Fields d s));
    ("IsSH"%string, func_bool (fun _ => true));
    ("joinPath"%string, func_variadic_string (fun elem =>
       filepath_Join d elem));
    ("relPath"%string, func_string2_string_error (fun basePath targetPath =>
       filepath_Rel d basePath targetPath))
  ] in
  let taskFuncs := <["FromSlash"%string := index taskFuncs "fromSlash"]> taskFuncs in
  let taskFuncs := <["ToSlash"%string := index taskFuncs "toSlash"]> taskFuncs in
  let taskFuncs := <["ExeExt"%string := index taskFuncs "exeExt"]> taskFuncs in
  taskFuncs.

(** [for k, v := range src { dst[k] = v }], the entries of [src] visited
    in the order [order] (Go leaves the order of a map's range open). *)
Definition rangeAssign (order : list (string * Func)) (dst : gmap string Func)
    : gmap string Func :=
  foldl (fun dst kv => <[kv.1 := kv.2]> dst) dst order.

(** [init] with the range over [taskFuncs] taken in a given order: the
    value it leaves in [templateFuncs]. *)
Definition init_in_order (d : Deps) (order : list (string * Func))
    : gmap string Func :=
  let templateFuncs := sprig_TxtFuncMap d in
  rangeAssign order templateFuncs.

(** The package variable [templateFuncs] after [init]. *)
Definition templateFuncs (d : Deps) : gmap string Func :=
  init_in_order d (map_to_list (taskFuncs d)).

(** What a template gets when it calls an entry with string arguments:
    the entries of [init] applied to as many arguments as they take. *)
Inductive Value : Type :=
| V_string (s : string)
| V_bool (b : bool)
| V_strings (l : list string)
| V_string_error (r : string * option error)
| V_strings_error (r : list string * option error).

Definition invoke (f : Func) (args : list string) : option Value :=
  match f, args with
  | func_string f, [] => Some (V_string (f tt))
  | func_bool f, [] => Some (V_bool (f tt))
  | func_string_string f, [a] => Some (V_string (f a))
  | func_string_strings f, [a] => Some (V_strings (f a))
  | func_string_string_error f, [a] => Some (V_string_error (f a))
  | func_string_strings_error f, [a] => Some (V_strings_error (f a))
  | func_variadic_string f, elem => Some (V_string (f elem))
  | func_string2_string_error f, [a; b] => Some (V_string_error (f a b))
  | _, _ => None
  end.

(** The function a template calls under a name, applied to arguments. *)
Definition eval (m : gmap string Func) (name : string) (args : list string)
    : option Value :=
  f ← m !! name; invoke f args.

(** *** Sample inputs *)

(** Stand-ins for the imports on a linux/amd64 build, with a base library
    that has an [OS] of its own. *)
Definition stubDeps : Deps := {|
  runtime_GOOS := "linux";
  runtime_GOARCH := "amd64";
  strings_ReplaceAll := fun s _ _ => s;
  strings_Split := fun s _ => [s];
  filepath_FromSlash := fun path => path;
  filepath_ToSlash := fun path => path;
  filepath_Join := fun elem => String.concat "/" elem;
  filepath_Rel := fun _ targetPath => (targetPath, None);
  syntax_Quote := fun str => ("'" +++ str +++ "'", None);
  shell_Fields := fun s => ([s], None);
  sprig_TxtFuncMap :=
    <["OS"%string := func_sprig "OS"]> (<["upper"%string := func_sprig "upper"]> ∅)
|}.

(** The names [init] defines: the keys of the map literal and the three
    deprecated aliases. *)
Definition taskFuncNames : list string := [
  "OS"; "ARCH"; "catLines"; "splitLines"; "fromSlash"; "toSlash"; "exeExt";
  "shellQuote"; "splitArgs"; "IsSH"; "joinPath"; "relPath";
  "FromSlash"; "ToSlash"; "ExeExt"
]%string.

End Templater.

(** ** Properties of package taskmain *)

Module TaskmainFacts.
Import Go Taskmain.

(** *** The process monad *)

Lemma bind_trace {A B} (t : list Event) (a : A) (k : A -> Proc B) :
  bind (t, Ret a) k = (t ++ (k a).1, (k a).2).
Proof. unfold bind. by destruct (k a). Qed.

(** *** The model on sample inputs *)

Example log_Output_appends_line_feed :
  log_Output "task: fatal" = "task: fatal" +++ nl
  /\ log_Output ("Options:" +++ nl) = "Options:" +++ nl.
Proof. split; reflexivity. Qed.

Example Vars_Set_replaces_in_place :
  Vars_Set "B" (Static "2")
    [("A"%string, Static "a"); ("B"%string, Dynamic "date"); ("C"%string, Static "c")]
  = [("A"%string, Static "a"); ("B"%string, Static "2"); ("C"%string, Static "c")]
  /\ Vars_Set "D" (Static "d") [("A"%string, Static "a")]
     = [("A"%string, Static "a"); ("D"%string, Static "d")].
Proof. split; reflexivity. Qed.

Example getVersion_of_build_info :
  getVersion {| version := ""; debug_ReadBuildInfo := Some ("v3.20.0", "h1:abc")%string;
                os_Getwd := (""%string, None); task_InitTaskfile := fun _ => None;
                filepath_Dir := id; filepath_Base := id;
                Executor_Setup := fun _ => None;
                Taskfile_ParsedVersion := fun _ => (3%float, None);
                Executor_ListTasks := fun _ _ => true;
                pflag_Args := []; pflag_ArgsLenAtDash := -1;
                syntax_Quote := stubQuote;
                args_ParseV3 := stubParse; args_ParseV2 := stubParse;
                Executor_Status := fun _ _ => None;
                Executor_Run := fun _ _ => None |}
  = ("v3.20.0 (h1:abc)"%string, "v3.20.0 (h1:abc)"%string).
Proof. reflexivity. Qed.

Example getArgs_sample :
  getArgs (stubWorld 3 None)
  = ret (["build"; "CLI_ARGS=mine"]%string, "'a b' 'c'"%string, None).
Proof. reflexivity. Qed.

Example Task_help :
  Task (stubWorld 3 None)
    {| versionFlag := false; helpFlag := true; init := true; list_ := false;
       listAll := false; status := false; force := false; watch := false;
       verbose := false; silent := false; dry := false; summary := false;
       exitCode := false; parallel := false; concurrency := 0; dir := "";
       entrypoint := "";
       output := {| Name := ""; Group_Begin := ""; Group_End := "" |};
       color := true; interval := "5s" |}
  = ([Stderr usage; PrintDefaults], Ret tt).
Proof. reflexivity. Qed.

Example Task_sample_run :
  Task (stubWorld 3 None) defaultFlags
  = ([Setup (newExecutor (stubWorld 3 None) defaultFlags);
      ParsedVersion (newExecutor (stubWorld 3 None) defaultFlags);
      ParseV3 ["build"; "CLI_ARGS=mine"]%string;
      Merge [("CLI_ARGS"%string, Static "'a b' 'c'")];
      InterceptInterruptSignals (newExecutor (stubWorld 3 None) defaultFlags);
      Run (newExecutor (stubWorld 3 None) defaultFlags) (stubParse []).1],
     Ret tt).
Proof. reflexivity. Qed.

Example Task_sample_exit_code :
  (Task (stubWorld 3 (Some (TaskRunError 42 "task: Failed to run task")))
     (withModes defaultFlags false false true)).2 = Exit 42
  /\ (Task (stubWorld 3 (Some (TaskRunError 42 "task: Failed to run task")))
        defaultFlags).2 = Exit 1.
Proof. split; reflexivity. Qed.

(** *** [getArgs] *)

Lemma quoteLoop_ok Quote rest quoted acc :
  Forall2 (fun arg q => Quote arg = (q, None)) rest quoted ->
  quoteLoop Quote rest acc = (acc ++ quoted, None).
Proof.
  intros H. revert acc.
  induction H as [|arg q rest quoted Hq _ IH]; intros acc; simpl.
  - by rewrite app_nil_r.
  - rewrite Hq, IH. by rewrite <- app_assoc.
Qed.

Lemma quoteLoop_error Quote rest acc quoted err :
  quoteLoop Quote rest acc = (quoted, Some err) ->
  quoted = [] /\ exists arg, In arg rest /\ (Quote arg).2 = Some err.
Proof.
  revert acc. induction rest as [|arg rest IH]; intros acc; simpl.
  - discriminate.
  - destruct (Quote arg) as [q [e|]] eqn:Hq.
    + intros [= <- <-]. split; [done|]. exists arg. rewrite Hq. auto.
    + intros H. destruct (IH _ H) as [-> (a & Ha & He)]. eauto.
Qed.

(** [getArgs] writes nothing and calls no collaborator but the quoting; it
    returns or panics. *)
Lemma getArgs_shape w :
  (exists x, getArgs w = ([], Ret x)) \/ getArgs w = ([], Panic).
Proof.
  unfold getArgs.
  destruct (pflag_ArgsLenAtDash w =? -1)%Z; [left; eexists; reflexivity|].
  destruct (_ || _); [by right|].
  destruct (quoteLoop _ _ _) as [q [err|]]; left; eexists; reflexivity.
Qed.

Lemma getArgs_without_separator w :
  pflag_ArgsLenAtDash w = (-1)%Z ->
  getArgs w = ret (pflag_Args w, ""%string, None).
Proof. intros Hd. unfold getArgs. by rewrite Hd. Qed.

Lemma getArgs_with_separator w (i : nat) (quoted : list string) :
  pflag_ArgsLenAtDash w = Z.of_nat i ->
  i <= length (pflag_Args w) ->
  Forall2 (fun arg q => syntax_Quote w arg = (q, None))
    (drop i (pflag_Args w)) quoted ->
  getArgs w = ret (take i (pflag_Args w), String.concat " " quoted, None).
Proof.
  intros Hd Hi Hq. unfold getArgs. rewrite Hd.
  destruct (Z.of_nat i =? -1)%Z eqn:Hm; [lia|].
  destruct ((Z.of_nat i <? 0)%Z
            || (Z.of_nat (length (pflag_Args w)) <? Z.of_nat i)%Z) eqn:Hb;
    [apply orb_true_iff in Hb as [Hb|Hb]; lia|].
  rewrite Nat2Z.id, (quoteLoop_ok _ _ _ _ Hq). reflexivity.
Qed.

(** A failed quoting is what [getArgs] returns, with no tokens. *)
Lemma getArgs_quote_failure w tasksAndVars cliArgs err :
  getArgs w = ret (tasksAndVars, cliArgs, Some err) ->
  tasksAndVars = [] /\ cliArgs = ""%string /\
  exists arg, In arg (pflag_Args w) /\ (syntax_Quote w arg).2 = Some err.
Proof.
  unfold getArgs, ret.
  destruct (pflag_ArgsLenAtDash w =? -1)%Z; [discriminate|].
  destruct (_ || _); [discriminate|].
  destruct (quoteLoop _ _ _) as [q [e|]] eqn:Hq; [|discriminate].
  intros [= <- <- <-]. repeat split.
  destruct (quoteLoop_error _ _ _ _ _ Hq) as [_ (arg & Hin & He)].
  exists arg. split; [|done].
  apply list_elem_of_In. apply list_elem_of_In in Hin.
  eapply subseteq_drop, Hin.
Qed.

Lemma getArgs_no_separator w tasksAndVars cliArgs err :
  getArgs w = ret (tasksAndVars, cliArgs, err) ->
  pflag_ArgsLenAtDash w = (-1)%Z ->
  tasksAndVars = pflag_Args w /\ cliArgs = ""%string /\ err = None.
Proof.
  unfold getArgs, ret. intros H Hd. rewrite Hd in H. simpl in H.
  by injection H as <- <- <-.
Qed.

(** *** The shape of [Task] *)

Lemma Task_from_call_building w fl v tasksAndVars cliArgs :
  reachesCallBuilding w fl v tasksAndVars cliArgs ->
  Task w fl =
    (run ([Setup (newExecutor w fl); ParsedVersion (newExecutor w fl)], Ret tt);
     fromCallBuilding w fl (newExecutor w fl) v tasksAndVars cliArgs).
Proof.
  intros (Hv & Hh & Hi & Hd & Hb & He & Hs & Hsetup & Hpv & Hl & Hla & Hg).
  unfold Task, newExecutor in *.
  rewrite Hv, Hh, Hi, Hd.
  destruct (if negb _ then _ else _) as [dir' entrypoint'].
  rewrite Hb, He, Hs, Hsetup, Hpv, Hl, Hla, Hg.
  unfold fromCallBuilding. cbn [bind call ret app].
  match goal with
  | |- _ = (let (_, _) := ?tail in _) => by destruct tail
  end.
Qed.

Lemma Task_reaches_line_206 w fl ev :
  fromLine206 ev = true -> In ev (Task w fl).1 ->
  exists v tasksAndVars cliArgs, reachesCallBuilding w fl v tasksAndVars cliArgs.
Proof.
  intros Hev H. unfold reachesCallBuilding, Task, newExecutor in *.
  destruct (versionFlag fl); [exfalso; simpl in H; destruct H as [<-|[]]; discriminate|].
  destruct (helpFlag fl); [exfalso; simpl in H; destruct H as [<-|[<-|[]]]; discriminate|].
  destruct (init fl).
  { exfalso. destruct (os_Getwd w) as [wd [err|]]; simpl in H.
    - destruct H as [<-|[<-|[]]]; discriminate.
    - destruct (task_InitTaskfile w wd); simpl in H;
        repeat (destruct H as [<-|H]; [discriminate|]); done. }
  destruct (negb (dir fl =? "")%string && _);
    [exfalso; simpl in H; destruct H as [<-|[]]; discriminate|].
  destruct (if negb _ then _ else _) as [dir' entrypoint'].
  destruct (negb (Name (output fl) =? "group")%string && negb (Group_Begin _ =? "")%string);
    [exfalso; simpl in H; destruct H as [<-|[]]; discriminate|].
  destruct (negb (Name (output fl) =? "group")%string && negb (Group_End _ =? "")%string);
    [exfalso; simpl in H; destruct H as [<-|[]]; discriminate|].
  destruct ((list_ fl || listAll fl) && silent fl);
    [exfalso; simpl in H; destruct H as [<-|[]]; discriminate|].
  set (e := Build_Executor _ _ _ _ _ _ _ _ _ _ _ _ _) in *.
  destruct (Executor_Setup w e);
    [exfalso; simpl in H; repeat (destruct H as [<-|H]; [discriminate|]); done|].
  destruct (Taskfile_ParsedVersion w e) as [v [err|]];
    [exfalso; simpl in H; repeat (destruct H as [<-|H]; [discriminate|]); done|].
  destruct (list_ fl).
  { exfalso. simpl in H. destruct (Executor_ListTasks _ _ _); simpl in H;
      repeat (destruct H as [<-|H]; [discriminate|]); done. }
  destruct (listAll fl).
  { exfalso. simpl in H. destruct (Executor_ListTasks _ _ _); simpl in H;
      repeat (destruct H as [<-|H]; [discriminate|]); done. }
  destruct (getArgs_shape w) as [[[[tasksAndVars cliArgs] err] Hg]|Hg]; rewrite Hg in *;
    [|exfalso; simpl in H; repeat (destruct H as [<-|H]; [discriminate|]); done].
  destruct err;
    [exfalso; simpl in H; repeat (destruct H as [<-|H]; [discriminate|]); done|].
  exists v, tasksAndVars, cliArgs. repeat split; reflexivity.
Qed.

(** Every path of lines 206 to 238, one goal each. *)
Ltac tail_step :=
  cbn [bind call ret emit os_Exit log_Fatal log_Print fmt_Printf
       app negb fst snd].

Ltac tail_cases w fl e v toks :=
  unfold fromCallBuilding;
  let calls := fresh "calls" in
  let globals := fresh "globals" in
  let Hparse := fresh "Hparse" in
  let Hres := fresh "Hres" in
  destruct (3 <=? v)%float eqn:?;
  [ destruct (args_ParseV3 w toks) as [calls globals] eqn:Hparse
  | destruct (args_ParseV2 w toks) as [calls globals] eqn:Hparse ];
  destruct (watch fl) eqn:?; destruct (status fl) eqn:?; tail_step;
  [ destruct (Executor_Status w e calls) as [?|] eqn:Hres
  | destruct (Executor_Run w e calls) as [[? ?|?]|] eqn:Hres;
    destruct (exitCode fl) eqn:?
  | destruct (Executor_Status w e calls) as [?|] eqn:Hres
  | destruct (Executor_Run w e calls) as [[? ?|?]|] eqn:Hres;
    destruct (exitCode fl) eqn:?
  | destruct (Executor_Status w e calls) as [?|] eqn:Hres
  | destruct (Executor_Run w e calls) as [[? ?|?]|] eqn:Hres;
    destruct (exitCode fl) eqn:?
  | destruct (Executor_Status w e calls) as [?|] eqn:Hres
  | destruct (Executor_Run w e calls) as [[? ?|?]|] eqn:Hres;
    destruct (exitCode fl) eqn:? ];
  tail_step.

Ltac in_cases H :=
  cbn [In bind call ret emit os_Exit log_Fatal log_Print fmt_Printf
       app negb fst snd] in H;
  repeat match type of H with
         | _ \/ _ => destruct H as [H|H]
         | False => destruct H
         end;
  try discriminate H.

(** *** Variable sets *)

Lemma Vars_Get_Set_same key value vs :
  Vars_Get (Vars_Set key value vs) key = Some value.
Proof.
  induction vs as [|[k v] vs IH]; simpl.
  - by rewrite String.eqb_refl.
  - destruct (String.eqb k key) eqn:Hk; simpl; rewrite Hk; [done|apply IH].
Qed.

Lemma Vars_Get_Set_other key key' value vs :
  key' <> key -> Vars_Get (Vars_Set key value vs) key' = Vars_Get vs key'.
Proof.
  intros Hne. induction vs as [|[k v] vs IH]; simpl.
  - apply String.eqb_neq in Hne. by rewrite String.eqb_sym, Hne.
  - destruct (String.eqb k key) eqn:Hk; simpl.
    + apply String.eqb_eq in Hk as ->.
      apply String.eqb_neq in Hne. by rewrite String.eqb_sym, Hne.
    + by rewrite IH.
Qed.

(** *** The call building and [CLI_ARGS] *)

(** Whenever [Task] gets to the call building, [getArgs] has returned
    the task tokens and the pass-through string [cliArgs] (empty when the
    command line has no separator, the quoted arguments joined by spaces
    when it has one), the Call Builder has run on the tokens, and the
    global set handed on is the builder's with [CLI_ARGS] set to the
    static value [cliArgs]: looking the name up gives that value, whatever
    the builder had bound it to. *)
Theorem Task_binds_CLI_ARGS w fl :
  usesV3 (Task w fl).1 \/ usesV2 (Task w fl).1 ->
  exists tasksAndVars cliArgs parsed,
    getArgs w = ret (tasksAndVars, cliArgs, None) /\
    (pflag_ArgsLenAtDash w = (-1)%Z -> cliArgs = ""%string) /\
    (forall (i : nat) (quoted : list string),
       pflag_ArgsLenAtDash w = Z.of_nat i ->
       i <= length (pflag_Args w) ->
       Forall2 (fun arg q => syntax_Quote w arg = (q, None))
         (drop i (pflag_Args w)) quoted ->
       cliArgs = String.concat " " quoted) /\
    (In (ParseV3 tasksAndVars) (Task w fl).1
       /\ parsed = (args_ParseV3 w tasksAndVars).2
     \/ In (ParseV2 tasksAndVars) (Task w fl).1
       /\ parsed = (args_ParseV2 w tasksAndVars).2) /\
    In (Merge (Vars_Set "CLI_ARGS" (Static cliArgs) parsed)) (Task w fl).1 /\
    (forall globals, In (Merge globals) (Task w fl).1 ->
       Vars_Get globals "CLI_ARGS" = Some (Static cliArgs)).
Proof.
  intros H.
  assert (exists ev, fromLine206 ev = true /\ In ev (Task w fl).1) as (ev & Hev & Hin).
  { destruct H as [[t Ht]|[t Ht]]; eexists; (split; [|exact Ht]); reflexivity. }
  destruct (Task_reaches_line_206 w fl ev Hev Hin) as (v & toks & cli & Hr).
  clear H ev Hev Hin.
  exists toks, cli.
  pose proof Hr as (_ & _ & _ & _ & _ & _ & _ & _ & _ & _ & _ & Hg).
  rewrite (Task_from_call_building w fl v toks cli Hr).
  rewrite bind_trace.
  exists (if (3 <=? v)%float then (args_ParseV3 w toks).2
          else (args_ParseV2 w toks).2).
  split; [exact Hg|].
  split; [intros Hd; by destruct (getArgs_no_separator _ _ _ _ Hg Hd) as (_ & -> & _)|].
  split.
  { intros i quoted Hd Hi Hq.
    rewrite (getArgs_with_separator w i quoted Hd Hi Hq) in Hg.
    unfold ret in Hg. congruence. }
  cbn [fst].
  tail_cases w fl (newExecutor w fl) v toks.
  all: split;
    [first [left; split; [cbn; tauto|reflexivity]
           |right; split; [cbn; tauto|reflexivity]]|].
  all: split; [cbn; tauto|].
  all: intros g Hm; in_cases Hm; injection Hm as <-; apply Vars_Get_Set_same.
Qed.

(** Every path of [Task], one goal each, with the executor folded back
    into [newExecutor]. *)
Ltac task_cases w fl :=
  unfold Task;
  destruct (versionFlag fl) eqn:Hversion;
  [|destruct (helpFlag fl) eqn:Hhelp;
  [|destruct (init fl) eqn:Hinit;
  [destruct (os_Getwd w) as [wd [?|]]; tail_step;
    [|destruct (task_InitTaskfile w wd)]
  |destruct (negb (dir fl =? "")%string && negb (entrypoint fl =? "")%string)
     eqn:Hdir;
  [|pose proof (eq_refl (newExecutor w fl)) as Hexec;
    unfold newExecutor at 2 in Hexec;
    destruct (if negb _ then _ else _) as [dir' entrypoint'];
    destruct (negb (Name (output fl) =? "group")%string
              && negb (Group_Begin (output fl) =? "")%string) eqn:Hbegin;
  [|destruct (negb (Name (output fl) =? "group")%string
              && negb (Group_End (output fl) =? "")%string) eqn:Hend;
  [|rewrite <- Hexec; clear Hexec;
    destruct ((list_ fl || listAll fl) && silent fl) eqn:Hnames;
  [|destruct (Executor_Setup w (newExecutor w fl)) eqn:Hsetup;
  [|destruct (Taskfile_ParsedVersion w (newExecutor w fl)) as [v [?|]] eqn:Hpv;
  [|destruct (list_ fl) eqn:Hlist;
  [destruct (Executor_ListTasks w (newExecutor w fl) _)
  |destruct (listAll fl) eqn:Hall;
  [destruct (Executor_ListTasks w (newExecutor w fl) _)
  |let Hg := fresh "Hg" in
   destruct (getArgs_shape w) as [[[[tasksAndVars cliArgs] [?|]] Hg]|Hg];
   rewrite Hg;
   [| tail_step; tail_cases w fl (newExecutor w fl) v tasksAndVars|]
  ]]]]]]]]]]];
  tail_step.

Lemma checks_give_invariant (o : Output) :
  negb (Name o =? "group")%string && negb (Group_Begin o =? "")%string = false ->
  negb (Name o =? "group")%string && negb (Group_End o =? "")%string = false ->
  groupTemplatesOnlyInGroup o.
Proof.
  unfold groupTemplatesOnlyInGroup. intros Hb He H.
  destruct (String.eqb_spec (Name o) "group") as [|_]; [done|].
  simpl in Hb, He.
  destruct (String.eqb_spec (Group_Begin o) "") as [Hb'|]; [|done].
  destruct (String.eqb_spec (Group_End o) "") as [He'|]; [|done].
  tauto.
Qed.

(** Every call [Task] makes on an executor is on the one it built, after
    the two checks of the group templates have passed. *)
Lemma Task_executor_event w fl ev e :
  In ev (Task w fl).1 -> executor_of ev = Some e ->
  e = newExecutor w fl /\ groupTemplatesOnlyInGroup (output fl).
Proof.
  task_cases w fl.
  all: intros H Hex; in_cases H; subst ev; try discriminate Hex.
  all: injection Hex as <-; split; [reflexivity|].
  all: by apply checks_give_invariant.
Qed.

Lemma OutputStyle_newExecutor w fl : OutputStyle (newExecutor w fl) = output fl.
Proof. unfold newExecutor. by destruct (if negb _ then _ else _). Qed.

Lemma three_SF : Prim2SF 3 = S754_finite false 6755399441055744 (-51).
Proof. vm_compute. reflexivity. Qed.

Lemma SF_not_le_finite (m0 : positive) (e0 : Z) (x : spec_float) :
  SFleb (S754_finite false m0 e0) x = false <->
  (SFltb x (S754_finite false m0 e0) = true \/ negb (SFeqb x x) = true).
Proof.
  unfold SFleb, SFltb, SFeqb.
  destruct x as [s|s| |s m e].
  - destruct s; cbn; intuition congruence.
  - destruct s; cbn; intuition congruence.
  - cbn. intuition congruence.
  - unfold SFcompare. destruct s.
    + rewrite Z.compare_refl, Pos.compare_cont_refl. cbn. intuition congruence.
    + rewrite Z.compare_refl, Pos.compare_cont_refl.
      rewrite (Z.compare_antisym e e0).
      destruct (e ?= e0)%Z; cbn [CompOpp negb]; try (intuition congruence).
      change (Pos.compare_cont Eq m0 m) with (Pos.compare m0 m).
      change (Pos.compare_cont Eq m m0) with (Pos.compare m m0).
      rewrite (Pos.compare_antisym m0 m).
      destruct (m0 ?= m)%positive; cbn [CompOpp negb]; intuition congruence.
Qed.

(** Go's [v >= 3.0] is false exactly when [v < 3.0] or [v] is not a
    number. *)
Lemma not_ge_3 (v : float) :
  (3 <=? v)%float = false <-> ((v <? 3)%float = true \/ is_nan v = true).
Proof.
  unfold is_nan. rewrite FloatAxioms.leb_spec, FloatAxioms.ltb_spec, FloatAxioms.eqb_spec, three_SF.
  apply SF_not_le_finite.
Qed.

(** C4.  Without a separator [getArgs] returns the whole list and the
    empty string; with the separator at index [i], and each argument from
    [i] on quoted successfully, it returns the arguments before [i]
    unchanged and the quoted forms, in order, joined by single spaces. *)
Theorem getArgs_splits_at_separator w :
  (pflag_ArgsLenAtDash w = (-1)%Z ->
   getArgs w = ret (pflag_Args w, ""%string, None)) /\
  (forall (i : nat) (quoted : list string),
     pflag_ArgsLenAtDash w = Z.of_nat i ->
     i <= length (pflag_Args w) ->
     Forall2 (fun arg q => syntax_Quote w arg = (q, None))
       (drop i (pflag_Args w)) quoted ->
     getArgs w = ret (take i (pflag_Args w), String.concat " " quoted, None)).
Proof.
  split.
  - apply getArgs_without_separator.
  - apply getArgs_with_separator.
Qed.

Lemma getArgs_splits_at_separator_witness :
  getArgs (stubWorld 3 None)
  = ret (["build"; "CLI_ARGS=mine"]%string, "'a b' 'c'"%string, None).
Proof.
  apply (proj2 (getArgs_splits_at_separator (stubWorld 3 None)) 2
           ["'a b'"; "'c'"]%string).
  - reflexivity.
  - simpl. lia.
  - repeat constructor.
Defined.

(** C1.  When [Task] gets to run the calls: it has written nothing to
    either stream, before or after the run; it returns when the run
    succeeds, and when the run fails it exits with the error's exit code
    if the flag asks for it and the error is a [TaskRunError], with 1
    otherwise.  So no diagnostic line goes with a failed run. *)
Theorem Task_run_exit_without_diagnostic w fl e calls :
  In (Run e calls) (Task w fl).1 ->
  (forall ev, In ev (Task w fl).1 -> isWrite ev = false) /\
  (Task w fl).2 =
    match Executor_Run w e calls with
    | None => Ret tt
    | Some err =>
        Exit (if exitCode fl
              then match err with
                   | TaskRunError code _ => code
                   | errorString _ => 1%Z
                   end
              else 1%Z)
    end.
Proof.
  task_cases w fl.
  all: intros H; in_cases H; injection H as <- <-.
  all: match goal with Hr : Executor_Run _ _ _ = _ |- _ => rewrite Hr end.
  all: split; [intros ev Hin; in_cases Hin; by subst ev|reflexivity].
Qed.

Lemma Task_run_exit_without_diagnostic_witness :
  Task (stubWorld 3 (Some (errorString "task: Failed to run task")))
       defaultFlags
  = ([Setup (newExecutor (stubWorld 3 None) defaultFlags);
      ParsedVersion (newExecutor (stubWorld 3 None) defaultFlags);
      ParseV3 ["build"; "CLI_ARGS=mine"]%string;
      Merge [("CLI_ARGS"%string, Static "'a b' 'c'")];
      InterceptInterruptSignals (newExecutor (stubWorld 3 None) defaultFlags);
      Run (newExecutor (stubWorld 3 None) defaultFlags) (stubParse []).1],
     Exit 1)
  /\ (forall ev,
        In ev (Task (stubWorld 3 (Some (errorString "task: Failed to run task")))
                 defaultFlags).1 ->
        isWrite ev = false).
Proof.
  split; [reflexivity|].
  apply (Task_run_exit_without_diagnostic
           (stubWorld 3 (Some (errorString "task: Failed to run task")))
           defaultFlags
           (newExecutor (stubWorld 3 None) defaultFlags) (stubParse []).1).
  simpl. tauto.
Defined.

(** At the sample command line [build CLI_ARGS=mine -- "a b" c], where the
    stand-in builder binds [CLI_ARGS] to "mine". *)
Lemma Task_binds_CLI_ARGS_witness :
  exists tasksAndVars cliArgs parsed,
    getArgs (stubWorld 3 None) = ret (tasksAndVars, cliArgs, None) /\
    (pflag_ArgsLenAtDash (stubWorld 3 None) = (-1)%Z -> cliArgs = ""%string) /\
    (forall (i : nat) (quoted : list string),
       pflag_ArgsLenAtDash (stubWorld 3 None) = Z.of_nat i ->
       i <= length (pflag_Args (stubWorld 3 None)) ->
       Forall2 (fun arg q => syntax_Quote (stubWorld 3 None) arg = (q, None))
         (drop i (pflag_Args (stubWorld 3 None))) quoted ->
       cliArgs = String.concat " " quoted) /\
    (In (ParseV3 tasksAndVars) (Task (stubWorld 3 None) defaultFlags).1
       /\ parsed = (args_ParseV3 (stubWorld 3 None) tasksAndVars).2
     \/ In (ParseV2 tasksAndVars) (Task (stubWorld 3 None) defaultFlags).1
       /\ parsed = (args_ParseV2 (stubWorld 3 None) tasksAndVars).2) /\
    In (Merge (Vars_Set "CLI_ARGS" (Static cliArgs) parsed))
       (Task (stubWorld 3 None) defaultFlags).1 /\
    (forall globals,
       In (Merge globals) (Task (stubWorld 3 None) defaultFlags).1 ->
       Vars_Get globals "CLI_ARGS" = Some (Static cliArgs)).
Proof.
  apply (Task_binds_CLI_ARGS (stubWorld 3 None) defaultFlags).
  left. exists ["build"; "CLI_ARGS=mine"]%string. simpl. tauto.
Defined.

(** C3.  [getArgs] takes the positional arguments and the separator from
    pflag's package-level flag set, while [Task] parses its [arguments]
    with a flag set of its own and never parses that one.  So with the
    package-level set as a process that has not parsed it leaves it (no
    positional argument, no separator), whatever [arguments] were and
    whatever flags they set, a [Task] that gets to the call building
    hands the Call Builder no token at all and binds [CLI_ARGS] to the
    empty string: what follows the separator in [arguments] is lost. *)
Theorem Task_CLI_ARGS_not_from_arguments w fl :
  pflag_Args w = [] -> pflag_ArgsLenAtDash w = (-1)%Z ->
  usesV3 (Task w fl).1 \/ usesV2 (Task w fl).1 ->
  (forall tokens,
     In (ParseV3 tokens) (Task w fl).1 \/ In (ParseV2 tokens) (Task w fl).1 ->
     tokens = []) /\
  (exists globals, In (Merge globals) (Task w fl).1) /\
  (forall globals, In (Merge globals) (Task w fl).1 ->
     Vars_Get globals "CLI_ARGS" = Some (Static "")).
Proof.
  intros Hargs Hdash H.
  assert (exists ev, fromLine206 ev = true /\ In ev (Task w fl).1)
    as (ev & Hev & Hin).
  { destruct H as [[t Ht]|[t Ht]]; eexists; (split; [|exact Ht]); reflexivity. }
  destruct (Task_reaches_line_206 w fl ev Hev Hin) as (v & toks & cli & Hr).
  clear H ev Hev Hin.
  pose proof Hr as (_ & _ & _ & _ & _ & _ & _ & _ & _ & _ & _ & Hg).
  rewrite (getArgs_without_separator w Hdash), Hargs in Hg.
  injection Hg as <- <-.
  rewrite (Task_from_call_building w fl v [] ""%string Hr), bind_trace.
  cbn [fst].
  tail_cases w fl (newExecutor w fl) v (@nil string).
  all: split; [intros t [Ht|Ht]; in_cases Ht; by injection Ht as <-|].
  all: split; [eexists; cbn; tauto|].
  all: intros g Hm; in_cases Hm; injection Hm as <-; apply Vars_Get_Set_same.
Qed.

Lemma Task_CLI_ARGS_not_from_arguments_witness :
  let w := stubWorldOf (""%string, None) None None (3%float, None) true []
             (-1) None None in
  Task w defaultFlags
  = ([Setup (newExecutor w defaultFlags);
      ParsedVersion (newExecutor w defaultFlags);
      ParseV3 [];
      Merge [("CLI_ARGS"%string, Static "")];
      InterceptInterruptSignals (newExecutor w defaultFlags);
      Run (newExecutor w defaultFlags) (stubParse []).1],
     Ret tt)
  /\ (forall globals, In (Merge globals) (Task w defaultFlags).1 ->
        Vars_Get globals "CLI_ARGS" = Some (Static "")).
Proof.
  intros w. split; [reflexivity|].
  refine (proj2 (proj2 (Task_CLI_ARGS_not_from_arguments w defaultFlags
                          eq_refl eq_refl _))).
  left. exists []. simpl. tauto.
Defined.

(** C2, amended.  With [--dir] and [--taskfile] both non-empty and none
    of [--version], [--help], [--init] given, [Task] writes the one
    diagnostic to the error stream and exits 1: the trace has no other
    event, so no collaborator was called and no file touched. *)
Theorem dir_and_taskfile_refused w fl :
  versionFlag fl = false -> helpFlag fl = false -> init fl = false ->
  dir fl <> ""%string -> entrypoint fl <> ""%string ->
  Task w fl
  = ([Stderr ("task: You can't set both --dir and --taskfile" +++ nl)], Exit 1)
  /\ InvalidFlagCombination (Task w fl).
Proof.
  intros Hv Hh Hi Hd He.
  assert (Task w fl
          = ([Stderr ("task: You can't set both --dir and --taskfile" +++ nl)],
             Exit 1)) as Heq.
  { unfold Task. rewrite Hv, Hh, Hi.
    apply String.eqb_neq in Hd, He. rewrite Hd, He. reflexivity. }
  split; [exact Heq|].
  rewrite Heq. eexists. split; [|reflexivity]. simpl. tauto.
Qed.

Lemma dir_and_taskfile_refused_witness :
  Task (stubWorld 3 None) (withDirAndTaskfile defaultFlags "sub" "Taskfile.yml")
  = ([Stderr ("task: You can't set both --dir and --taskfile" +++ nl)], Exit 1)
  /\ InvalidFlagCombination
       (Task (stubWorld 3 None)
          (withDirAndTaskfile defaultFlags "sub" "Taskfile.yml")).
Proof.
  apply (dir_and_taskfile_refused (stubWorld 3 None)
           (withDirAndTaskfile defaultFlags "sub" "Taskfile.yml"));
    first [reflexivity | discriminate].
Defined.

(** C2 as stated fails: with [--init] as well, [Task] asks for the working
    directory, has the Taskfile scaffolded there and returns. *)
Lemma dir_and_taskfile_with_init_scaffolds :
  let fl := withModes (withDirAndTaskfile defaultFlags "sub" "Taskfile.yml")
              false true false in
  dir fl <> ""%string /\ entrypoint fl <> ""%string /\
  Task (stubWorld 3 None) fl = ([Getwd; InitTaskfile "/work"], Ret tt) /\
  ~ InvalidFlagCombination (Task (stubWorld 3 None) fl).
Proof.
  repeat split; try discriminate.
  intros (msg & _ & H). discriminate H.
Qed.

(** C7, amended.  With a group template non-empty, the style not "group"
    and none of [--version], [--help], [--init] given, [Task] fails with
    one of the diagnostics of a refused flag combination and does nothing
    else; and every executor [Task] calls has an output configuration
    whose group templates are empty unless its style is "group". *)
Theorem group_templates_need_group_style w fl :
  (versionFlag fl = false -> helpFlag fl = false -> init fl = false ->
   Name (output fl) <> "group"%string ->
   Group_Begin (output fl) <> ""%string \/ Group_End (output fl) <> ""%string ->
   InvalidFlagCombination (Task w fl)) /\
  (forall ev e, In ev (Task w fl).1 -> executor_of ev = Some e ->
     groupTemplatesOnlyInGroup (OutputStyle e)).
Proof.
  split.
  - intros Hv Hh Hi Hn Ht. unfold Task. rewrite Hv, Hh, Hi.
    apply String.eqb_neq in Hn. rewrite Hn.
    destruct (negb (dir fl =? "")%string && negb (entrypoint fl =? "")%string).
    { eexists. split; [|reflexivity]. simpl. tauto. }
    destruct (if negb _ then _ else _) as [dir' entrypoint'].
    destruct (String.eqb_spec (Group_Begin (output fl)) "") as [Hb|Hb]; simpl.
    + destruct (String.eqb_spec (Group_End (output fl)) "") as [He|He]; simpl.
      * tauto.
      * eexists. split; [|reflexivity]. simpl. tauto.
    + eexists. split; [|reflexivity]. simpl. tauto.
  - intros ev e Hin Hex.
    destruct (Task_executor_event w fl ev e Hin Hex) as [-> Hinv].
    by rewrite OutputStyle_newExecutor.
Qed.

Lemma group_templates_need_group_style_witness :
  InvalidFlagCombination
    (Task (stubWorld 3 None)
       (withOutput defaultFlags
          {| Name := "prefixed"; Group_Begin := "::group::"; Group_End := "" |}))
  /\ groupTemplatesOnlyInGroup
       (OutputStyle (newExecutor (stubWorld 3 None) defaultFlags)).
Proof.
  split.
  - apply (proj1 (group_templates_need_group_style (stubWorld 3 None)
             (withOutput defaultFlags
                {| Name := "prefixed"; Group_Begin := "::group::";
                   Group_End := "" |})));
      first [reflexivity | discriminate | left; discriminate].
  - apply (proj2 (group_templates_need_group_style (stubWorld 3 None)
             defaultFlags)
             (Setup (newExecutor (stubWorld 3 None) defaultFlags))).
    + simpl. tauto.
    + reflexivity.
Defined.

(** C7 as stated fails: with [--version] as well, [Task] prints the
    version and returns. *)
Lemma group_template_with_version_prints :
  let fl := withModes
              (withOutput defaultFlags
                 {| Name := "prefixed"; Group_Begin := "::group::";
                    Group_End := "" |})
              true false false in
  Name (output fl) <> "group"%string /\
  Group_Begin (output fl) <> ""%string /\
  Task (stubWorld 3 None) fl = ([Stdout ("Task version: v3.20.0" +++ nl)], Ret tt) /\
  ~ InvalidFlagCombination (Task (stubWorld 3 None) fl).
Proof.
  repeat split; try discriminate.
  intros (msg & _ & H). discriminate H.
Qed.

(** C6, amended.  When [Task] gets to the call building with the version
    [v] of the Taskfile, the Call Builder runs under the v3 grammar
    exactly when [v >= 3.0] and under the v2 grammar in every other case:
    when [v < 3.0] or [v] is not a number. *)
Theorem grammar_by_version w fl :
  usesV3 (Task w fl).1 \/ usesV2 (Task w fl).1 ->
  let v := (Taskfile_ParsedVersion w (newExecutor w fl)).1 in
  (usesV3 (Task w fl).1 <-> (3 <=? v)%float = true) /\
  (usesV2 (Task w fl).1 <-> (3 <=? v)%float = false) /\
  (usesV2 (Task w fl).1 <-> ((v <? 3)%float = true \/ is_nan v = true)).
Proof.
  intros H v.
  assert ((usesV3 (Task w fl).1 <-> (3 <=? v)%float = true) /\
          (usesV2 (Task w fl).1 <-> (3 <=? v)%float = false)) as [H3 H2].
  { subst v. revert H. unfold usesV3, usesV2. task_cases w fl.
    all: intros [[t H]|[t H]]; in_cases H.
    all: split; split; first
      [ done
      | intros [t' H']; in_cases H'
      | intros _; eexists; cbn; tauto ]. }
  repeat split; try tauto.
  - intros Hu. apply not_ge_3. tauto.
  - intros Hn. apply H2. by apply not_ge_3.
Qed.

Lemma grammar_by_version_witness :
  (usesV3 (Task (stubWorld 3 None) defaultFlags).1 <-> (3 <=? 3)%float = true) /\
  (usesV2 (Task (stubWorld 3 None) defaultFlags).1 <-> (3 <=? 3)%float = false) /\
  (usesV2 (Task (stubWorld 3 None) defaultFlags).1 <->
     ((3 <? 3)%float = true \/ is_nan 3 = true)).
Proof.
  apply (grammar_by_version (stubWorld 3 None) defaultFlags).
  left. exists ["build"; "CLI_ARGS=mine"]%string. simpl. tauto.
Defined.

(** C6 as stated fails: a Taskfile whose version parses to NaN gets the
    v2 grammar, although NaN is not below 3.0. *)
Lemma grammar_of_nan_version :
  (Taskfile_ParsedVersion (stubWorld nan None)
     (newExecutor (stubWorld nan None) defaultFlags)).1 = nan /\
  usesV2 (Task (stubWorld nan None) defaultFlags).1 /\
  (nan <? 3)%float = false /\
  ~ (usesV2 (Task (stubWorld nan None) defaultFlags).1 <-> (nan <? 3)%float = true).
Proof.
  assert (usesV2 (Task (stubWorld nan None) defaultFlags).1) as Hu.
  { exists ["build"; "CLI_ARGS=mine"]%string. simpl. tauto. }
  repeat split; try done.
  intros [Himp _]. specialize (Himp Hu). discriminate Himp.
Qed.

(** *** Further properties of [getArgs] and [getVersion] *)

Lemma quoteLoop_first_failure Quote ok quoted bad q err rest acc :
  Forall2 (fun arg q => Quote arg = (q, None)) ok quoted ->
  Quote bad = (q, Some err) ->
  quoteLoop Quote (ok ++ bad :: rest) acc = ([], Some err).
Proof.
  intros Hok Hbad. revert acc.
  induction Hok as [|arg q' ok quoted Hq _ IH]; intros acc; simpl.
  - by rewrite Hbad.
  - by rewrite Hq, IH.
Qed.

(** X1.  When the arguments from the separator on are quoted in order and
    one of them is refused, [getArgs] returns the error of the first one
    refused, with no tokens and no string, whatever follows it. *)
Theorem getArgs_first_refused_argument w (i : nat) ok quoted bad q err rest :
  pflag_ArgsLenAtDash w = Z.of_nat i ->
  drop i (pflag_Args w) = ok ++ bad :: rest ->
  Forall2 (fun arg q => syntax_Quote w arg = (q, None)) ok quoted ->
  syntax_Quote w bad = (q, Some err) ->
  getArgs w = ret ([], ""%string, Some err).
Proof.
  intros Hd Hdrop Hok Hbad. unfold getArgs. rewrite Hd.
  assert (i < length (pflag_Args w)) as Hi.
  { destruct (decide (i < length (pflag_Args w))) as [|Hge]; [done|].
    rewrite drop_ge in Hdrop by lia. by destruct ok. }
  destruct (Z.of_nat i =? -1)%Z eqn:Hm; [lia|].
  destruct ((Z.of_nat i <? 0)%Z
            || (Z.of_nat (length (pflag_Args w)) <? Z.of_nat i)%Z) eqn:Hb;
    [apply orb_true_iff in Hb as [Hb|Hb]; lia|].
  rewrite Nat2Z.id, Hdrop.
  by rewrite (quoteLoop_first_failure _ _ _ _ _ _ _ _ Hok Hbad).
Qed.

Lemma getArgs_first_refused_argument_witness :
  getArgs (stubWorldOf (""%string, None) None None (3%float, None) true
             ["build"; "a"; nul; "b"; nul]%string 1 None None)
  = ret ([], ""%string,
         Some (errorString "shell strings cannot contain null bytes")).
Proof.
  apply (getArgs_first_refused_argument _ 1 ["a"%string] ["'a'"%string] nul
           ""%string _ ["b"%string; nul]).
  - reflexivity.
  - reflexivity.
  - repeat constructor.
  - reflexivity.
Defined.

(** X2.  [getArgs] panics exactly when the index of the separator is
    neither -1 nor an index into the arguments (0 up to their number);
    [Task] panics only then. *)
Theorem getArgs_panics_out_of_range w :
  (getArgs w = ([], Panic) <->
   (pflag_ArgsLenAtDash w < -1
    \/ Z.of_nat (length (pflag_Args w)) < pflag_ArgsLenAtDash w)%Z) /\
  (forall fl, (Task w fl).2 = Panic ->
     (pflag_ArgsLenAtDash w < -1
      \/ Z.of_nat (length (pflag_Args w)) < pflag_ArgsLenAtDash w)%Z).
Proof.
  assert (getArgs w = ([], Panic) <->
          (pflag_ArgsLenAtDash w < -1
           \/ Z.of_nat (length (pflag_Args w)) < pflag_ArgsLenAtDash w)%Z) as Hp.
  { unfold getArgs.
    destruct (pflag_ArgsLenAtDash w =? -1)%Z eqn:Hm.
    { split; [discriminate|]. intros [?|?]; lia. }
    destruct ((pflag_ArgsLenAtDash w <? 0)%Z
              || (Z.of_nat (length (pflag_Args w)) <? pflag_ArgsLenAtDash w)%Z)
      eqn:Hb.
    - split; [|done]. intros _.
      apply orb_true_iff in Hb as [Hb|Hb]; lia.
    - apply orb_false_iff in Hb as [Hb1 Hb2].
      split; [by destruct (quoteLoop _ _ _) as [? [?|]]|].
      intros [?|?]; lia. }
  split; [exact Hp|].
  intros fl. task_cases w fl; try discriminate.
  intros _. by apply Hp.
Qed.

Lemma getArgs_panics_out_of_range_witness :
  getArgs (stubWorldOf (""%string, None) None None (3%float, None) true
             ["build"]%string 2 None None) = ([], Panic)
  /\ (Task (stubWorldOf (""%string, None) None None (3%float, None) true
              ["build"]%string 2 None None) defaultFlags).2 = Panic.
Proof.
  split; [|reflexivity].
  apply (proj1 (getArgs_panics_out_of_range _)). right. simpl. lia.
Defined.

(** X3.  A separator after the last argument leaves nothing to pass
    through: [getArgs] returns all the arguments as tokens and the empty
    string, as it does without a separator. *)
Theorem getArgs_trailing_separator w :
  pflag_ArgsLenAtDash w = Z.of_nat (length (pflag_Args w)) ->
  getArgs w = ret (pflag_Args w, ""%string, None).
Proof.
  intros Hd.
  rewrite (getArgs_with_separator w (length (pflag_Args w)) [] Hd).
  - by rewrite take_ge.
  - lia.
  - rewrite drop_ge by lia. constructor.
Qed.

Lemma getArgs_trailing_separator_witness :
  getArgs (stubWorldOf (""%string, None) None None (3%float, None) true
             ["build"; "deploy"]%string 2 None None)
  = ret (["build"; "deploy"]%string, ""%string, None).
Proof. apply getArgs_trailing_separator. reflexivity. Defined.

Lemma append_not_empty (a b : string) : a <> ""%string -> a +++ b <> ""%string.
Proof. by destruct a. Qed.

(** X4.  [getVersion] never returns the empty string, and a second call,
    with the package variable as the first call left it, returns what the
    first returned and leaves the variable alone. *)
Theorem getVersion_not_empty_and_stable w :
  (getVersion w).1 <> ""%string /\
  getVersion (withVersion w (getVersion w).2) = getVersion w.
Proof.
  unfold getVersion, withVersion. cbn [version debug_ReadBuildInfo].
  destruct (String.eqb_spec (version w) "") as [Hv|Hv]; cbn [negb fst snd].
  - destruct (debug_ReadBuildInfo w) as [[Main_Version Main_Sum]|];
      [|by rewrite Hv].
    destruct (String.eqb_spec Main_Version "") as [Hm|Hm];
      [by rewrite Hv|].
    set (version' := if negb (Main_Sum =? "")%string then _ else _).
    assert (version' <> ""%string) as Hne.
    { subst version'. destruct (negb _); [by apply append_not_empty|done]. }
    cbn [fst snd]. split; [done|].
    apply String.eqb_neq in Hne. by rewrite Hne.
  - split; [done|]. apply String.eqb_neq in Hv. by rewrite Hv.
Qed.

(** *** Further properties of [Task] *)

(** Every path of [Task], as [task_cases], keeping what each collaborator
    answered as an equation. *)
Ltac task_paths w fl :=
  unfold Task;
  destruct (versionFlag fl) eqn:Hversion;
  [|destruct (helpFlag fl) eqn:Hhelp;
  [|destruct (init fl) eqn:Hinit;
  [destruct (os_Getwd w) as [wd [?|]] eqn:Hgetwd; tail_step;
    [|destruct (task_InitTaskfile w wd) eqn:Hscaffold]
  |destruct (negb (dir fl =? "")%string && negb (entrypoint fl =? "")%string)
     eqn:Hdir;
  [|pose proof (eq_refl (newExecutor w fl)) as Hexec;
    unfold newExecutor at 2 in Hexec;
    destruct (if negb _ then _ else _) as [dir' entrypoint'];
    destruct (negb (Name (output fl) =? "group")%string
              && negb (Group_Begin (output fl) =? "")%string) eqn:Hbegin;
  [|destruct (negb (Name (output fl) =? "group")%string
              && negb (Group_End (output fl) =? "")%string) eqn:Hend;
  [|rewrite <- Hexec; clear Hexec;
    destruct ((list_ fl || listAll fl) && silent fl) eqn:Hnames;
  [|destruct (Executor_Setup w (newExecutor w fl)) eqn:Hsetup;
  [|destruct (Taskfile_ParsedVersion w (newExecutor w fl)) as [v [?|]] eqn:Hpv;
  [|destruct (list_ fl) eqn:Hlist;
  [destruct (Executor_ListTasks w (newExecutor w fl) _) eqn:Hlisted
  |destruct (listAll fl) eqn:Hall;
  [destruct (Executor_ListTasks w (newExecutor w fl) _) eqn:Hlisted
  |let Hg := fresh "Hg" in
   destruct (getArgs_shape w) as [[[[tasksAndVars cliArgs] [?|]] Hg]|Hg];
   rewrite Hg;
   [| tail_step; tail_cases w fl (newExecutor w fl) v tasksAndVars|]
  ]]]]]]]]]]];
  tail_step.

(** Use the answers kept as equations. *)
Ltac answers :=
  repeat match goal with
         | H : ?x = _ |- context [?x] => rewrite H
         end.

Lemma last_is_nl_append (s : string) : last_is_nl (s +++ nl) = true.
Proof.
  induction s as [|c s IH]; [reflexivity|].
  destruct s as [|c' s']; [reflexivity|exact IH].
Qed.

Lemma log_Output_ends_in_line_feed (s : string) : last_is_nl (log_Output s) = true.
Proof.
  unfold log_Output. destruct (last_is_nl s) eqn:Hs; [done|].
  apply last_is_nl_append.
Qed.

(** X5.  With [--version] or [--help], [Task] only prints (the version to
    the output stream, or else the usage and the flags' defaults to the
    error stream) and returns, whatever the other flags are and whatever
    the collaborators would answer. *)
Theorem version_and_help_come_first w fl :
  versionFlag fl = true \/ helpFlag fl = true ->
  Task w fl =
    (if versionFlag fl
     then [Stdout ("Task version: " +++ (getVersion w).1 +++ nl)]
     else [Stderr usage; PrintDefaults],
     Ret tt).
Proof.
  unfold Task. destruct (versionFlag fl); [done|].
  intros [|Hh]; [done|]. by rewrite Hh.
Qed.

Lemma version_and_help_come_first_witness :
  let w := stubWorldOf (""%string, Some (errorString "getwd")) None
             (Some (errorString "no Taskfile")) (3%float, None) false [] (-1)
             None None in
  let fl := withModes (withDirAndTaskfile defaultFlags "sub" "Taskfile.yml")
              true true true in
  Task w fl = ([Stdout ("Task version: v3.20.0 (h1:abc)" +++ nl)], Ret tt).
Proof.
  intros w fl.
  apply (version_and_help_come_first w fl).
  left. reflexivity.
Defined.

(** X6.  The scaffolding is only ever asked for under [--init], without
    [--version] and [--help], in the working directory [os.Getwd] gave;
    [Task] then uses no executor, returns when the scaffolding succeeds
    and otherwise exits 1 after the error's diagnostic. *)
Theorem init_only_scaffolds w fl cwd :
  In (InitTaskfile cwd) (Task w fl).1 ->
  versionFlag fl = false /\ helpFlag fl = false /\ init fl = true /\
  os_Getwd w = (cwd, None) /\
  (forall ev e, In ev (Task w fl).1 -> executor_of ev <> Some e) /\
  Task w fl =
    match task_InitTaskfile w cwd with
    | None => ([Getwd; InitTaskfile cwd], Ret tt)
    | Some err =>
        ([Getwd; InitTaskfile cwd; Stderr (log_Output (Error err))], Exit 1)
    end.
Proof.
  task_paths w fl.
  all: intros H; in_cases H; injection H as <-; answers.
  all: repeat split; intros ev' ex' Hin'; in_cases Hin'; by subst ev'.
Qed.

Lemma init_only_scaffolds_witness :
  let w := stubWorldOf ("/work"%string, None)
             (Some (errorString "task: A Taskfile already exists")) None
             (3%float, None) true [] (-1) None None in
  let fl := withModes defaultFlags false true false in
  Task w fl
  = ([Getwd; InitTaskfile "/work";
      Stderr ("task: A Taskfile already exists" +++ nl)], Exit 1).
Proof.
  intros w fl.
  refine (proj2 (proj2 (proj2 (proj2 (proj2
            (init_only_scaffolds w fl "/work"%string _)))))).
  simpl. tauto.
Defined.

(** X7.  The names of the tasks are listed only under [--silent] with
    [--list] or [--list-all], on the executor [Task] built; nothing is
    set up or loaded for it, and [Task] returns. *)
Theorem names_are_listed_without_loading w fl e all :
  In (ListTaskNames e all) (Task w fl).1 ->
  silent fl = true /\ (list_ fl = true \/ listAll fl = true) /\
  Task w fl = ([ListTaskNames (newExecutor w fl) (listAll fl)], Ret tt).
Proof.
  task_paths w fl.
  all: intros H; in_cases H; injection H as <- <-.
  apply andb_true_iff in Hnames as [Hl Hs].
  apply orb_true_iff in Hl. done.
Qed.

Lemma names_are_listed_without_loading_witness :
  let w := stubWorldOf (""%string, None) None (Some (errorString "no Taskfile"))
             (3%float, None) true [] (-1) None None in
  let fl := withListing defaultFlags false true true in
  Task w fl = ([ListTaskNames (newExecutor w fl) true], Ret tt).
Proof.
  intros w fl.
  refine (proj2 (proj2 (names_are_listed_without_loading w fl
                          (newExecutor w fl) true _))).
  simpl. tauto.
Defined.

(** X8.  A failure of the set-up, or of reading the version after it,
    ends [Task] there: its diagnostic on the error stream and exit 1,
    with nothing listed, built, checked or run. *)
Theorem loading_failure_is_fatal w fl e :
  In (Setup e) (Task w fl).1 ->
  e = newExecutor w fl /\
  (forall err, Executor_Setup w e = Some err ->
     Task w fl = ([Setup e; Stderr (log_Output (Error err))], Exit 1)) /\
  (forall v err, Executor_Setup w e = None ->
     Taskfile_ParsedVersion w e = (v, Some err) ->
     Task w fl
     = ([Setup e; ParsedVersion e; Stderr (log_Output (Error err))], Exit 1)).
Proof.
  task_paths w fl.
  all: intros H; in_cases H; injection H as <-.
  all: split; [reflexivity|]; split.
  all: try (intros ? Hs; rewrite Hsetup in Hs; try discriminate Hs;
            by injection Hs as <-).
  all: intros ? ? Hs Hp;
       first [ rewrite Hsetup in Hs; discriminate Hs
             | rewrite Hpv in Hp; try discriminate Hp;
               by injection Hp as <- <- ].
Qed.

Lemma loading_failure_is_fatal_witness :
  let w := stubWorldOf (""%string, None) None None
             (0%float, Some (errorString "task: Could not parse taskfile version"))
             true [] (-1) None None in
  Task w defaultFlags
  = ([Setup (newExecutor w defaultFlags);
      ParsedVersion (newExecutor w defaultFlags);
      Stderr ("task: Could not parse taskfile version" +++ nl)], Exit 1).
Proof.
  intros w.
  refine (proj2 (proj2 (loading_failure_is_fatal w defaultFlags
                          (newExecutor w defaultFlags) _))
            0%float _ eq_refl eq_refl).
  simpl. tauto.
Defined.

(** X9.  A listing ([--list], or [--list-all] without it) is made on the
    executor [Task] built, with the filters of the first flag that is
    set; [Task] then returns whatever the listing answered, builds no
    call, checks and runs nothing, and writes its one hint to the output
    stream exactly when nothing was listed. *)
Theorem listing_always_returns w fl e filters :
  In (ListTasks e filters) (Task w fl).1 ->
  e = newExecutor w fl /\
  (list_ fl = true \/ listAll fl = true) /\
  filters = (if list_ fl then [FilterOutInternal; FilterOutNoDesc]
             else [FilterOutInternal]) /\
  (Task w fl).2 = Ret tt /\
  (forall ev, In ev (Task w fl).1 -> fromLine206 ev = false) /\
  List.filter isWrite (Task w fl).1 =
    (if Executor_ListTasks w e filters then []
     else [Stdout (if list_ fl
                   then "task: No tasks with description available. Try --list-all to list all tasks"
                   else "task: No tasks available")]).
Proof.
  task_paths w fl.
  all: intros H; in_cases H; injection H as <- <-; answers.
  all: repeat split; auto.
  all: intros ev' Hin'; in_cases Hin'; by subst ev'.
Qed.

Lemma listing_always_returns_witness :
  let w := stubWorldOf (""%string, None) None None (3%float, None) false []
             (-1) None None in
  let fl := withListing defaultFlags true true false in
  Task w fl
  = ([Setup (newExecutor w fl); ParsedVersion (newExecutor w fl);
      ListTasks (newExecutor w fl) [FilterOutInternal; FilterOutNoDesc];
      Stdout "task: No tasks with description available. Try --list-all to list all tasks"],
     Ret tt)
  /\ (Task w fl).2 = Ret tt.
Proof.
  intros w fl. split; [reflexivity|].
  refine (proj1 (proj2 (proj2 (proj2 (listing_always_returns w fl
           (newExecutor w fl) [FilterOutInternal; FilterOutNoDesc] _))))).
  simpl. tauto.
Defined.

(** X10.  Under [--status] no task is run; the status check is made only
    under that flag, and [Task] returns when it passes and otherwise
    exits 1 after the error's diagnostic, its only write. *)
Theorem status_never_runs w fl :
  (status fl = true -> forall e calls, ~ In (Run e calls) (Task w fl).1) /\
  (forall e calls, In (Status e calls) (Task w fl).1 ->
     status fl = true /\
     (Task w fl).2 =
       match Executor_Status w e calls with
       | None => Ret tt
       | Some _ => Exit 1
       end /\
     List.filter isWrite (Task w fl).1 =
       match Executor_Status w e calls with
       | None => []
       | Some err => [Stderr (log_Output (Error err))]
       end).
Proof.
  task_paths w fl.
  all: split;
    [ intros Hst ex' calls' H; in_cases H; discriminate Hst
    | intros ex' calls' H; in_cases H; injection H as <- <-; answers; done ].
Qed.

Lemma status_never_runs_witness :
  let w := stubWorldOf (""%string, None) None None (3%float, None) true
             ["build"]%string (-1)
             (Some (errorString "task: Task is not up-to-date")) None in
  let fl := withStatusWatch defaultFlags true false in
  Task w fl
  = ([Setup (newExecutor w fl); ParsedVersion (newExecutor w fl);
      ParseV3 ["build"]%string;
      Merge [("CLI_ARGS"%string, Static "")];
      InterceptInterruptSignals (newExecutor w fl);
      Status (newExecutor w fl) (stubParse []).1;
      Stderr ("task: Task is not up-to-date" +++ nl)],
     Exit 1)
  /\ (forall e calls, ~ In (Run e calls) (Task w fl).1).
Proof.
  intros w fl. split; [reflexivity|].
  exact (proj1 (status_never_runs w fl) eq_refl).
Defined.

(** X11.  The calls [Task] checks or runs are the ones the Call Builder
    made of the tokens [getArgs] returned, under the grammar of the
    Taskfile's version, on the executor [Task] built. *)
Theorem calls_come_from_the_builder w fl e calls :
  In (Run e calls) (Task w fl).1 \/ In (Status e calls) (Task w fl).1 ->
  e = newExecutor w fl /\
  exists tasksAndVars cliArgs,
    getArgs w = ret (tasksAndVars, cliArgs, None) /\
    calls = (if (3 <=? (Taskfile_ParsedVersion w e).1)%float
             then args_ParseV3 w tasksAndVars
             else args_ParseV2 w tasksAndVars).1.
Proof.
  task_paths w fl.
  all: intros [H|H]; in_cases H; injection H as <- <-.
  all: split; [reflexivity|]; eexists _, _; split; [reflexivity|].
  all: answers; cbn [fst]; answers; reflexivity.
Qed.

Lemma calls_come_from_the_builder_witness :
  let w := stubWorld 3 None in
  exists tasksAndVars cliArgs,
    getArgs w = ret (tasksAndVars, cliArgs, None) /\
    (stubParse []).1 =
      (if (3 <=? (Taskfile_ParsedVersion w (newExecutor w defaultFlags)).1)%float
       then args_ParseV3 w tasksAndVars
       else args_ParseV2 w tasksAndVars).1.
Proof.
  intros w.
  refine (proj2 (calls_come_from_the_builder w defaultFlags
                   (newExecutor w defaultFlags) (stubParse []).1 _)).
  left. simpl. tauto.
Defined.

(** X12.  In watch mode [Task] never has the interrupt signals
    intercepted; outside it, whenever calls are checked or run, the
    interception was set up just before, on the same executor. *)
Theorem interrupts_intercepted_unless_watching w fl :
  (watch fl = true ->
   forall e, ~ In (InterceptInterruptSignals e) (Task w fl).1) /\
  (watch fl = false -> forall e calls,
     (In (Run e calls) (Task w fl).1 ->
      exists before after,
        (Task w fl).1
        = before ++ InterceptInterruptSignals e :: Run e calls :: after) /\
     (In (Status e calls) (Task w fl).1 ->
      exists before after,
        (Task w fl).1
        = before ++ InterceptInterruptSignals e :: Status e calls :: after)).
Proof.
  task_paths w fl.
  all: split; [intros Hw ex' H; in_cases H; discriminate Hw|].
  all: intros Hw ex' calls'; split; intros H; in_cases H; try discriminate Hw.
  all: injection H as <- <-.
  all: eexists [_; _; _; _], _; reflexivity.
Qed.

Lemma interrupts_intercepted_unless_watching_witness :
  (forall e,
     ~ In (InterceptInterruptSignals e)
         (Task (stubWorld 3 None) (withStatusWatch defaultFlags false true)).1)
  /\ exists before after,
       (Task (stubWorld 3 None) defaultFlags).1
       = before
         ++ InterceptInterruptSignals (newExecutor (stubWorld 3 None) defaultFlags)
         :: Run (newExecutor (stubWorld 3 None) defaultFlags) (stubParse []).1
         :: after.
Proof.
  split.
  - exact (proj1 (interrupts_intercepted_unless_watching (stubWorld 3 None)
                    (withStatusWatch defaultFlags false true)) eq_refl).
  - apply (proj2 (interrupts_intercepted_unless_watching (stubWorld 3 None)
                    defaultFlags) eq_refl).
    simpl. tauto.
Defined.

(** X13.  [Task] exits with code 1, with one exception: under
    [--exit-code], a run that failed with a [TaskRunError] exits with that
    error's code. *)
Theorem exit_code_is_1_or_the_run_error_code w fl code :
  (Task w fl).2 = Exit code ->
  code = 1%Z \/
  (exitCode fl = true /\
   exists e calls text,
     In (Run e calls) (Task w fl).1 /\
     Executor_Run w e calls = Some (TaskRunError code text)).
Proof.
  task_paths w fl.
  all: intros H; try discriminate H; injection H as <-.
  all: first [ by left
             | right; split; [reflexivity|];
               eexists _, _, _; split; [cbn; eauto 10|eassumption] ].
Qed.

Lemma exit_code_is_1_or_the_run_error_code_witness :
  let w := stubWorld 3 (Some (TaskRunError 42 "task: Failed to run task")) in
  let fl := withModes defaultFlags false false true in
  (Task w fl).2 = Exit 42
  /\ (42%Z = 1%Z \/
      (exitCode fl = true /\
       exists e calls text,
         In (Run e calls) (Task w fl).1 /\
         Executor_Run w e calls = Some (TaskRunError 42 text))).
Proof.
  intros w fl. split; [reflexivity|].
  apply (exit_code_is_1_or_the_run_error_code w fl 42).
  reflexivity.
Defined.

(** X14.  When [Task] exits without having run the calls, the code is 1
    and the trace ends with the one line it wrote: a diagnostic on the
    error stream that ends in a line feed. *)
Theorem fatal_exit_after_one_diagnostic w fl code :
  (Task w fl).2 = Exit code ->
  (forall e calls, ~ In (Run e calls) (Task w fl).1) ->
  code = 1%Z /\
  exists line,
    last (Task w fl).1 = Some (Stderr line) /\
    List.filter isWrite (Task w fl).1 = [Stderr line] /\
    last_is_nl line = true.
Proof.
  task_paths w fl.
  all: intros H Hnorun; try discriminate H; injection H as <-.
  all: try (exfalso; eapply Hnorun; cbn; eauto 10; fail).
  all: split; [reflexivity|]; eexists; split; [reflexivity|];
       split; [reflexivity|].
  all: first [ apply log_Output_ends_in_line_feed | reflexivity ].
Qed.

Lemma fatal_exit_after_one_diagnostic_witness :
  let w := stubWorldOf (""%string, None) None None (3%float, None) true
             ["build"; nul]%string 1 None None in
  exists line,
    last (Task w defaultFlags).1 = Some (Stderr line) /\
    List.filter isWrite (Task w defaultFlags).1 = [Stderr line] /\
    last_is_nl line = true.
Proof.
  intros w.
  refine (proj2 (fatal_exit_after_one_diagnostic w defaultFlags 1 eq_refl _)).
  intros e calls H. simpl in H.
  repeat (destruct H as [H|H]; [discriminate H|]). exact H.
Defined.

(** X15.  Whatever [Task] writes to the error stream is the usage text of
    [--help] or the diagnostic of an exit with code 1; and after a write
    to the output stream [Task] returns. *)
Theorem writes_of_Task w fl :
  (forall s, In (Stderr s) (Task w fl).1 ->
     (Task w fl).2 = Exit 1 \/
     (versionFlag fl = false /\ helpFlag fl = true /\ s = usage)) /\
  (forall s, In (Stdout s) (Task w fl).1 -> (Task w fl).2 = Ret tt).
Proof.
  task_paths w fl.
  all: split; intros s H; in_cases H.
  all: first [ by left
             | right; injection H as <-; by repeat split
             | reflexivity ].
Qed.

Lemma Task_executor_built w fl ev e :
  In ev (Task w fl).1 -> executor_of ev = Some e ->
  e = newExecutor w fl /\
  negb (dir fl =? "")%string && negb (entrypoint fl =? "")%string = false.
Proof.
  task_cases w fl.
  all: intros H Hex; in_cases H; subst ev; try discriminate Hex.
  all: by injection Hex as <-.
Qed.

(** X16.  Every executor [Task] calls was built from flags of which
    [--dir] and [--taskfile] are not both set: with [--taskfile] it works
    in the directory of that path on the file of its base name, without
    it in the directory of [--dir] with no entry point; the other fields
    are the flags' values. *)
Theorem executor_follows_the_flags w fl ev e :
  In ev (Task w fl).1 -> executor_of ev = Some e ->
  (dir fl = ""%string \/ entrypoint fl = ""%string) /\
  Dir e = (if String.eqb (entrypoint fl) "" then dir fl
           else filepath_Dir w (entrypoint fl)) /\
  Entrypoint e = (if String.eqb (entrypoint fl) "" then ""%string
                  else filepath_Base w (entrypoint fl)) /\
  (Force e, Watch e, Verbose e, Silent e, Dry e, Summary e, Parallel e,
   Color e, Concurrency e, Interval e, OutputStyle e)
  = (force fl, watch fl, verbose fl, silent fl, dry fl, summary fl,
     parallel fl, color fl, concurrency fl, interval fl, output fl).
Proof.
  intros H Hex.
  destruct (Task_executor_built w fl ev e H Hex) as [-> Hdir].
  unfold newExecutor.
  destruct (String.eqb_spec (entrypoint fl) "") as [He|He];
    destruct (String.eqb_spec (dir fl) "") as [Hd|Hd];
    try discriminate Hdir; cbn; rewrite ?He; auto.
Qed.

Lemma executor_follows_the_flags_witness :
  let w := stubWorldOf (""%string, None) None None (3%float, None) true []
             (-1) None None in
  let fl := withDirAndTaskfile defaultFlags "" "ci/Taskfile.yml" in
  Dir (newExecutor w fl) = "sub"%string
  /\ Entrypoint (newExecutor w fl) = "Taskfile.yml"%string.
Proof.
  intros w fl.
  pose proof (executor_follows_the_flags w fl (Setup (newExecutor w fl)) _
                (or_introl eq_refl) eq_refl) as (_ & Hd & He & _).
  split; [exact Hd|exact He].
Defined.


(** X18.  When [getArgs] returns an error, the Call Builder does not run
    and nothing is merged, intercepted, checked or run. *)
Theorem nothing_is_built_after_a_refused_argument w fl tasksAndVars cliArgs err :
  getArgs w = ret (tasksAndVars, cliArgs, Some err) ->
  forall ev, In ev (Task w fl).1 -> fromLine206 ev = false.
Proof.
  intros Hg ev Hin. destruct (fromLine206 ev) eqn:Hev; [|done].
  destruct (Task_reaches_line_206 w fl ev Hev Hin)
    as (v & toks & cli & (_ & _ & _ & _ & _ & _ & _ & _ & _ & _ & _ & Hg')).
  rewrite Hg in Hg'. discriminate Hg'.
Qed.

Lemma nothing_is_built_after_a_refused_argument_witness :
  let w := stubWorldOf (""%string, None) None None (3%float, None) true
             ["build"; nul]%string 1 None None in
  Task w defaultFlags
  = ([Setup (newExecutor w defaultFlags);
      ParsedVersion (newExecutor w defaultFlags);
      Stderr ("shell strings cannot contain null bytes" +++ nl)], Exit 1)
  /\ fromLine206 (Setup (newExecutor w defaultFlags)) = false.
Proof.
  intros w. split; [reflexivity|].
  apply (nothing_is_built_after_a_refused_argument w defaultFlags [] ""%string
           (errorString "shell strings cannot contain null bytes") eq_refl).
  simpl. tauto.
Defined.

End TaskmainFacts.

(** ** Properties of package templater *)

Module TemplaterFacts.
Import Go Templater.

(** The range loop is a left-biased union, the entries read last first. *)
Lemma rangeAssign_union (order : list (string * Func)) (dst : gmap string Func) :
  rangeAssign order dst = list_to_map (reverse order) ∪ dst.
Proof.
  revert dst. induction order as [|[k v] order IH]; intros dst; simpl.
  - by rewrite (left_id_L ∅ (∪)).
  - rewrite IH, reverse_cons, list_to_map_app. simpl.
    rewrite insert_union_singleton_l, insert_empty.
    by rewrite (assoc_L (∪)).
Qed.

Lemma init_in_order_union d (order : list (string * Func)) :
  order ≡ₚ map_to_list (taskFuncs d) ->
  init_in_order d order = taskFuncs d ∪ sprig_TxtFuncMap d.
Proof.
  intros Hp. unfold init_in_order. rewrite rangeAssign_union. f_equal.
  symmetry. apply list_to_map_flip. by rewrite reverse_Permutation.
Qed.

Lemma templateFuncs_union d :
  templateFuncs d = taskFuncs d ∪ sprig_TxtFuncMap d.
Proof. exact (init_in_order_union d _ (Permutation_refl _)). Qed.

(** C8.  [init] leaves in [templateFuncs] the base library's map with the
    entries of [taskFuncs] assigned over it, the same map in whatever
    order the range visits them: a name [taskFuncs] defines maps to its
    function there, whether or not the base library defines the name too,
    and every other name maps to what the base library has. *)
Theorem templateFuncs_shadows_base d :
  templateFuncs d = taskFuncs d ∪ sprig_TxtFuncMap d /\
  (forall order, order ≡ₚ map_to_list (taskFuncs d) ->
     init_in_order d order = templateFuncs d) /\
  (forall name f g, taskFuncs d !! name = Some f ->
     sprig_TxtFuncMap d !! name = Some g ->
     templateFuncs d !! name = Some f) /\
  (forall name f, taskFuncs d !! name = Some f ->
     templateFuncs d !! name = Some f) /\
  (forall name, taskFuncs d !! name = None ->
     templateFuncs d !! name = sprig_TxtFuncMap d !! name).
Proof.
  split; [apply templateFuncs_union|].
  split; [intros order Hp; by rewrite templateFuncs_union, init_in_order_union|].
  rewrite templateFuncs_union.
  split; [|split].
  - intros name f g Hf _. by apply lookup_union_Some_l.
  - intros name f Hf. by apply lookup_union_Some_l.
  - intros name Hn. by apply lookup_union_r.
Qed.

Lemma templateFuncs_shadows_base_witness :
  sprig_TxtFuncMap stubDeps !! "OS"%string = Some (func_sprig "OS") /\
  templateFuncs stubDeps !! "OS"%string
  = Some (func_string (fun _ => runtime_GOOS stubDeps)).
Proof.
  split; [reflexivity|].
  apply (proj1 (proj2 (proj2 (templateFuncs_shadows_base stubDeps)))
           "OS"%string _ (func_sprig "OS")); reflexivity.
Defined.

Lemma lookup_task d name f :
  taskFuncs d !! name = Some f -> templateFuncs d !! name = Some f.
Proof. rewrite templateFuncs_union. apply lookup_union_Some_l. Qed.

Example templateFuncs_sample :
  eval (templateFuncs stubDeps) "joinPath" ["a"; "b"]%string
  = Some (V_string "a/b")
  /\ templateFuncs stubDeps !! "upper"%string = Some (func_sprig "upper")
  /\ templateFuncs stubDeps !! "lower"%string = None.
Proof.
  unfold eval. rewrite (lookup_task stubDeps "joinPath" _ eq_refl).
  split; [reflexivity|].
  pose proof (templateFuncs_union stubDeps) as ->.
  split; (etrans; [apply lookup_union_r|]); reflexivity.
Qed.

(** C9.  Called from a template, [OS] and [ARCH] give the operating system
    and the architecture of the build target and nothing else enters
    their result; [exeExt] gives ".exe" when the operating system of the
    build target is "windows" and the empty string otherwise. *)
Theorem OS_ARCH_exeExt_of_build_target d :
  eval (templateFuncs d) "OS" [] = Some (V_string (runtime_GOOS d)) /\
  eval (templateFuncs d) "ARCH" [] = Some (V_string (runtime_GOARCH d)) /\
  (exists ext, eval (templateFuncs d) "exeExt" [] = Some (V_string ext) /\
     (ext = ".exe"%string <-> runtime_GOOS d = "windows"%string) /\
     (runtime_GOOS d <> "windows"%string -> ext = ""%string)).
Proof.
  unfold eval.
  rewrite (lookup_task d "OS" _ eq_refl), (lookup_task d "ARCH" _ eq_refl),
    (lookup_task d "exeExt" _ eq_refl).
  repeat split. eexists. split; [reflexivity|].
  destruct (String.eqb_spec (runtime_GOOS d) "windows"); split; try done.
Qed.

Lemma OS_ARCH_exeExt_of_build_target_witness :
  eval (templateFuncs stubDeps) "OS" [] = Some (V_string "linux") /\
  eval (templateFuncs stubDeps) "ARCH" [] = Some (V_string "amd64") /\
  (exists ext, eval (templateFuncs stubDeps) "exeExt" [] = Some (V_string ext) /\
     (ext = ".exe"%string <-> "linux"%string = "windows"%string) /\
     ("linux"%string <> "windows"%string -> ext = ""%string)).
Proof. exact (OS_ARCH_exeExt_of_build_target stubDeps). Defined.

(** C10.  Each deprecated name is bound in the registry to the very
    function its current name is bound to, so a call under either name,
    on any arguments, gives the same result: [FromSlash] and [fromSlash]
    to [filepath.FromSlash], [ToSlash] and [toSlash] to
    [filepath.ToSlash], [ExeExt] and [exeExt] to the extension of
    executables. *)
Theorem deprecated_aliases_agree d :
  (exists f, templateFuncs d !! "FromSlash"%string = Some f /\
             templateFuncs d !! "fromSlash"%string = Some f /\
             forall path, invoke f [path] = Some (V_string (filepath_FromSlash d path))) /\
  (exists f, templateFuncs d !! "ToSlash"%string = Some f /\
             templateFuncs d !! "toSlash"%string = Some f /\
             forall path, invoke f [path] = Some (V_string (filepath_ToSlash d path))) /\
  (exists f, templateFuncs d !! "ExeExt"%string = Some f /\
             templateFuncs d !! "exeExt"%string = Some f) /\
  (forall args,
     eval (templateFuncs d) "FromSlash" args = eval (templateFuncs d) "fromSlash" args /\
     eval (templateFuncs d) "ToSlash" args = eval (templateFuncs d) "toSlash" args /\
     eval (templateFuncs d) "ExeExt" args = eval (templateFuncs d) "exeExt" args).
Proof.
  repeat split.
  - eexists. split; [by apply lookup_task|]. split; [by apply lookup_task|done].
  - eexists. split; [by apply lookup_task|]. split; [by apply lookup_task|done].
  - eexists. split; by apply lookup_task.
  - unfold eval. by rewrite (lookup_task d "FromSlash" _ eq_refl),
      (lookup_task d "fromSlash" _ eq_refl).
  - unfold eval. by rewrite (lookup_task d "ToSlash" _ eq_refl),
      (lookup_task d "toSlash" _ eq_refl).
  - unfold eval. by rewrite (lookup_task d "ExeExt" _ eq_refl),
      (lookup_task d "exeExt" _ eq_refl).
Qed.

Lemma dom_taskFuncs d : dom (taskFuncs d) = list_to_set taskFuncNames.
Proof.
  unfold taskFuncs. cbv zeta.
  rewrite !dom_insert_L, dom_list_to_map_L. cbn [fmap list_fmap fst taskFuncNames list_to_set foldr].
  set_solver.
Qed.

(** X17.  The registry defines exactly the names of the base library and
    the fifteen names of [init], and under each of the fifteen it holds a
    function: none is left nil, the deprecated aliases included. *)
Theorem registry_names d :
  dom (templateFuncs d)
  = list_to_set taskFuncNames ∪ dom (sprig_TxtFuncMap d) /\
  (forall name, In name taskFuncNames ->
     exists f, templateFuncs d !! name = Some f /\ f <> func_nil
               /\ forall b, f <> func_sprig b).
Proof.
  split.
  - by rewrite templateFuncs_union, dom_union_L, dom_taskFuncs.
  - intros name Hin. cbn [In taskFuncNames] in Hin.
    repeat (destruct Hin as [<-|Hin];
            [eexists; split; [by apply lookup_task|by split]|]).
    destruct Hin.
Qed.

Lemma registry_names_witness :
  exists f, templateFuncs stubDeps !! "ExeExt"%string = Some f /\ f <> func_nil
            /\ forall b, f <> func_sprig b.
Proof.
  apply (proj2 (registry_names stubDeps) "ExeExt"%string).
  simpl. tauto.
Defined.

End TemplaterFacts.
